(** * Form builder: the variant dispatcher, its two callers and the JSON editor

    A shallow embedding of
    - [src/screens/render-form-field/index.tsx]: [renderFormField], and the
      JSON-driven [FormRenderer] with [convertJsonFieldToFormField];
    - [src/app/layout.tsx]: [renderFormFields] and [FormPreview];
    - [src/screens/form-json-builder/index.tsx]: [handleJsonChange] and
      [handleRefresh].

    JavaScript values are a small inductive type, exceptions are an explicit
    result type, React state setters and [form.setValue] are commands that the
    owning component interprets on its hook state. *)

From Stdlib Require Import String Ascii List ZArith Bool Lia DecimalString.
Import ListNotations.

Set Warnings "-register-all".

Local Open Scope string_scope.
Local Open Scope Z_scope.

(* ===================================================================== *)
(** ** JavaScript values and exceptions *)
(* ===================================================================== *)

Module Js.

(** The values [JSON.parse] produces, and [undefined] for an absent
    property.  Numbers are integers: the program never computes with them,
    it only tests them for truthiness and prints them. *)
Inductive Val : Type :=
| VUndef
| VNull
| VBool (b : bool)
| VNum (n : Z)
| VStr (s : string)
| VArr (l : list Val)
| VObj (l : list (string * Val)).

Inductive Exn : Type :=
| TypeError (msg : string)
| Error (msg : string)
| SyntaxError (msg : string).

Inductive result (A : Type) : Type :=
| Ok (a : A)
| Throw (e : Exn).
Arguments Ok {A} a.
Arguments Throw {A} e.

Definition bind {A B} (r : result A) (k : A -> result B) : result B :=
  match r with
  | Ok a => k a
  | Throw e => Throw e
  end.

Definition isOk {A} (r : result A) : bool :=
  match r with Ok _ => true | Throw _ => false end.

(** [Array.prototype.map] with a callback that may throw: the first
    exception aborts the traversal. *)
Fixpoint mapM {A B} (f : A -> result B) (l : list A) : result (list B) :=
  match l with
  | [] => Ok []
  | a :: l' =>
      bind (f a) (fun b => bind (mapM f l') (fun bs => Ok (b :: bs)))
  end.

(** ToBoolean. *)
Definition truthy (v : Val) : bool :=
  match v with
  | VUndef | VNull => false
  | VBool b => b
  | VNum n => negb (n =? 0)
  | VStr s => negb (s =? "")%string
  | VArr _ | VObj _ => true
  end.

(** [a || b] *)
Definition orElse (a b : Val) : Val := if truthy a then a else b.

(** [a && b] *)
Definition andAlso (a b : Val) : Val := if truthy a then b else a.

(** [Number.prototype.toString] on an integer that JavaScript prints in
    full, that is below 10^21 in absolute value; larger numbers, which it
    prints with an exponent, and fractions are outside the model. *)
Definition numToString (n : Z) : string :=
  NilZero.string_of_int (Z.to_int n).

(** [Array.prototype.join]. *)
Fixpoint join (sep : string) (l : list string) : string :=
  match l with
  | [] => ""
  | [s] => s
  | s :: l' => s ++ sep ++ join sep l'
  end.

(** ToString, as used when a value is a property key.  An array prints its
    elements joined by commas, [null] and [undefined] elements as nothing. *)
Fixpoint toString (v : Val) : string :=
  match v with
  | VUndef => "undefined"
  | VNull => "null"
  | VBool true => "true"
  | VBool false => "false"
  | VNum n => numToString n
  | VStr s => s
  | VArr l =>
      join "," (map (fun e => match e with
                              | VUndef | VNull => ""
                              | _ => toString e
                              end) l)
  | VObj _ => "[object Object]"
  end.

(** Own-property lookup in an object literal or a parsed object. *)
Fixpoint assoc {A} (k : string) (l : list (string * A)) : option A :=
  match l with
  | [] => None
  | (k', a) :: l' => if (k =? k')%string then Some a else assoc k l'
  end.

(** [v.k] for the property names the program reads from a JSON value
    ([fields], [type], [label], [name], ...): none of them is defined on
    the prototype of an array, a string, a number or a boolean, so only an
    object can answer, and [null] and [undefined] throw. *)
Definition getProp (v : Val) (k : string) : result Val :=
  match v with
  | VUndef =>
      Throw (TypeError ("Cannot read properties of undefined (reading '" ++ k ++ "')"))
  | VNull =>
      Throw (TypeError ("Cannot read properties of null (reading '" ++ k ++ "')"))
  | VObj l => Ok (match assoc k l with Some x => x | None => VUndef end)
  | _ => Ok VUndef
  end.

(** [String.prototype.toUpperCase] on ASCII characters: the letters a to z
    become A to Z and every other ASCII character is unchanged.  A string
    of the model is a sequence of bytes; characters above 127, whose upper
    case JavaScript takes from the Unicode tables, are outside the model,
    and the properties that depend on the case of a first character are
    stated for an ASCII first character. *)
Definition upperAscii (c : ascii) : ascii :=
  let n := nat_of_ascii c in
  if (andb (97 <=? n) (n <=? 122))%nat then ascii_of_nat (n - 32) else c.

Fixpoint toUpperCase (s : string) : string :=
  match s with
  | EmptyString => EmptyString
  | String c s' => String (upperAscii c) (toUpperCase s')
  end.

(** [s.charAt(0)] *)
Definition charAt0 (s : string) : string :=
  match s with
  | EmptyString => EmptyString
  | String c _ => String c EmptyString
  end.

(** [s.slice(1)] *)
Definition slice1 (s : string) : string :=
  match s with
  | EmptyString => EmptyString
  | String _ s' => s'
  end.

(** The properties every object literal inherits from [Object.prototype];
    all of them are functions or objects, hence truthy. *)
Definition objectPrototypeKeys : list string :=
  [ "constructor"; "hasOwnProperty"; "isPrototypeOf"; "propertyIsEnumerable";
    "toLocaleString"; "toString"; "valueOf"; "__proto__";
    "__defineGetter__"; "__defineSetter__";
    "__lookupGetter__"; "__lookupSetter__" ].

Definition strIn (s : string) (l : list string) : bool :=
  existsb (fun k => (s =? k)%string) l.

End Js.

Import Js.

Notation "x <- r ;; k" := (Js.bind r (fun x => k))
  (at level 61, r at next level, right associativity).

(* ===================================================================== *)
(** ** The data the dispatcher works on *)
(* ===================================================================== *)

(** A [Date] is its time value, a [File] its name. *)
Definition Date : Type := Z.

Record File : Type := { file_name : string }.

(** What a handler does when it runs: the calls that reach a React state
    setter or the form library.  The component that owns the state applies
    them (see [FormRenderer.apply]). *)
Inductive Cmd : Type :=
| SetChecked (b : bool)
| SetSmartDatetime (d : Date)
| SetTagsValue (tags : list string)
| SetValue (s : string)
| SetDate (d : option Date)
| SetSelectedValues (values : list string)
| SetCountryName (n : string)
| SetStateName (n : string)
| SetFiles (files : option (list File))
| SetDatetime (d : Date)
| FormSetValue (name : Val) (v : Val) (options : list (string * bool)).

Definition Cmds : Type := list Cmd.

(** The value of a field's [variant]: a string, or, when it was looked up
    in an object literal under the name of an inherited property, the
    function or object found on [Object.prototype]. *)
Inductive VariantVal : Type :=
| VariantStr (s : string)
| VariantInherited (key : string).

Module FormFieldType.

(** Modelled from the spec: the declaration of [FormFieldType] in [@/types]
    is not among the sources.  The fields are those [renderFormField] reads
    and [convertJsonFieldToFormField] writes, with the variant-specific
    constraints of the spec's FieldSpec ([min], [max], [step], [length],
    [defaultValue]).  A field a caller leaves out is [VUndef]. *)
Record t : Type := {
  variant : VariantVal;
  type : Val;
  label : Val;
  name : Val;
  placeholder : Val;
  required : Val;
  description : Val;
  options : Val;
  disabled : Val;
  value : Val;
  setValue : Val -> Cmds;
  checked : Val;
  onChange : Val -> Cmds;
  onSelect : Val -> Cmds;
  rowIndex : Val;
  min : Val;
  max : Val;
  step : Val;
  length : Val;
  defaultValue : Val
}.

End FormFieldType.

Module State.

(** The third parameter of [renderFormField]: one value and one setter per
    slot ([value?: string] and the optional dates are [option]s, [files] is
    [File[] | null]). *)
Record t : Type := {
  checked : bool;
  setChecked : bool -> Cmds;
  smartDatetime : option Date;
  setSmartDatetime : Date -> Cmds;
  tagsValue : list string;
  setTagsValue : list string -> Cmds;
  canvasRef : option nat;
  value : option string;
  setValue : string -> Cmds;
  date : option Date;
  setDate : option Date -> Cmds;
  selectedValues : list string;
  setSelectedValues : list string -> Cmds;
  countryName : string;
  setCountryName : string -> Cmds;
  stateName : string;
  setStateName : string -> Cmds;
  files : option (list File);
  setFiles : option (list File) -> Cmds;
  datetime : option Date;
  setDatetime : Date -> Cmds
}.

End State.

Module Form.

(** The part of the [form: any] parameter the handlers call:
    [form.setValue(name, value, options)].  ([form.watch] is read once, in
    the Tags Input case, into a constant that is never used.) *)
Record t : Type := {
  setValue : Val -> Val -> list (string * bool) -> Cmds
}.

End Form.

(* ===================================================================== *)
(** ** render-form-field: the controls and the dispatcher *)
(* ===================================================================== *)

Local Open Scope list_scope.

Module Ui.

Record Language : Type := { lang_label : string; lang_value : string }.

(** [<CommandItem value key onSelect>] with its [<Check>] mark and text. *)
Record CommandItem : Type := {
  item_value : string;
  item_key : string;
  item_onSelect : Cmds;
  item_checked : bool;
  item_text : string
}.

Record Country : Type := { country_name : string }.

Inductive OTPChild : Type :=
| InputOTPGroup (slots : list Z)
| InputOTPSeparator.

(** The interactive control of each case, with the props the source gives
    it.  A handler written [() => ...] is the commands it issues; a handler
    that reads its argument is a function of that argument.  Class names,
    icons and the Calendar's filter of selectable dates, which reads the
    clock, are left out. *)
Inductive Control : Type :=
| Checkbox (checked : bool) (onCheckedChange : Cmds) (disabled : Val)
| Combobox (buttonText : Val) (items : list CommandItem)
| Calendar (buttonText : option Date) (selected : option Date)
    (onSelect : option Date -> Cmds)
| DatetimePicker (spread : FormFieldType.t) (value : option Date)
    (onChange : option Date -> Cmds) (format : list (list string))
| FileUploader (value : option (list File))
    (onValueChange : option (list File) -> Cmds)
    (maxFiles maxSize : Z) (multiple : bool) (items : list string)
| Input (placeholder disabled type : Val)
| InputOTP (maxLength : Z) (children : list OTPChild)
| LocationSelector (onCountryChange onStateChange : option Country -> Cmds)
| MultiSelector (values : list string) (onValuesChange : list string -> Cmds)
    (placeholder : string) (items : list (string * string))
| Select (onValueChange : Val -> Cmds) (defaultValue placeholder : string)
    (items : list (string * string))
| Slider (min max step : Val) (defaultValue : list Z)
    (onValueChange : list Z -> result Cmds)
| SignatureInput (canvasRef : option nat)
    (onSignatureChange : option string -> Cmds)
| SmartDatetimeInput (value : option Date) (onValueChange : Date -> Cmds)
    (placeholder : string)
| Switch (checked : bool) (onCheckedChange : Cmds)
| TagsInput (value : list string) (onValueChange : list string -> Cmds)
    (placeholder : string)
| Textarea (placeholder : Val)
| PasswordInput (value : string)
| PhoneInput (defaultCountry : string).

(** The [<FormItem>] a case returns: label, the [{field.required && '*'}]
    mark where the case has one, the control, the children of
    [<FormDescription>], and whether a [<FormMessage />] follows. *)
Record FormItem : Type := {
  label : Val;
  requiredMark : option Val;
  control : Control;
  description : list Val;
  formMessage : bool
}.

End Ui.

Inductive Case : Type :=
| CaseCheckbox | CaseCombobox | CaseDatePicker | CaseDatetimePicker
| CaseFileInput | CaseInput | CaseInputOTP | CaseLocationInput
| CaseMultiSelect | CaseSelect | CaseSlider | CaseSignatureInput
| CaseSmartDatetimeInput | CaseSwitch | CaseTagsInput | CaseTextarea
| CasePassword | CasePhone.

(** The [case] labels of the [switch], in source order. *)
Definition caseLabels : list (string * Case) :=
  [ ("Checkbox", CaseCheckbox); ("Combobox", CaseCombobox);
    ("Date Picker", CaseDatePicker); ("Datetime Picker", CaseDatetimePicker);
    ("File Input", CaseFileInput); ("Input", CaseInput);
    ("Input OTP", CaseInputOTP); ("Location Input", CaseLocationInput);
    ("Multi Select", CaseMultiSelect); ("Select", CaseSelect);
    ("Slider", CaseSlider); ("Signature Input", CaseSignatureInput);
    ("Smart Datetime Input", CaseSmartDatetimeInput); ("Switch", CaseSwitch);
    ("Tags Input", CaseTagsInput); ("Textarea", CaseTextarea);
    ("Password", CasePassword); ("Phone", CasePhone) ].

(** [switch (field.variant)] compares with [===]: only a string equal to a
    label selects a case, anything else falls to [default]. *)
Definition switchCase (v : VariantVal) : option Case :=
  match v with
  | VariantStr s => assoc s caseLabels
  | VariantInherited _ => None
  end.

Definition languages : list Ui.Language :=
  [ {| Ui.lang_label := "English"; Ui.lang_value := "en" |};
    {| Ui.lang_label := "French"; Ui.lang_value := "fr" |};
    {| Ui.lang_label := "German"; Ui.lang_value := "de" |};
    {| Ui.lang_label := "Spanish"; Ui.lang_value := "es" |};
    {| Ui.lang_label := "Portuguese"; Ui.lang_value := "pt" |};
    {| Ui.lang_label := "Russian"; Ui.lang_value := "ru" |};
    {| Ui.lang_label := "Japanese"; Ui.lang_value := "ja" |};
    {| Ui.lang_label := "Korean"; Ui.lang_value := "ko" |};
    {| Ui.lang_label := "Chinese"; Ui.lang_value := "zh" |} ].

(** [state.value], a [string | undefined], as a value. *)
Definition optStr (o : option string) : Val :=
  match o with Some s => VStr s | None => VUndef end.

(** [state.value === language.value] *)
Definition optStrIs (o : option string) (s : string) : bool :=
  match o with Some s' => (s' =? s)%string | None => false end.

(** [s || ''] on a string: the empty string is the only falsy one. *)
Definition strOrEmpty (s : string) : string := s.

(** [country?.name || ''] *)
Definition countryNameOrEmpty (c : option Ui.Country) : string :=
  match c with Some c' => Ui.country_name c' | None => "" end.

Definition renderFormField (field : FormFieldType.t) (form : Form.t)
    (state : State.t) : option Ui.FormItem :=
  let star := Some (andAlso (FormFieldType.required field) (VStr "*")) in
  let item mark ctl msg :=
    Some {| Ui.label := FormFieldType.label field;
            Ui.requiredMark := mark;
            Ui.control := ctl;
            Ui.description := [FormFieldType.description field];
            Ui.formMessage := msg |} in
  match switchCase (FormFieldType.variant field) with
  | Some CaseCheckbox =>
      item star
        (Ui.Checkbox (State.checked state)
           (State.setChecked state (negb (State.checked state)))
           (FormFieldType.disabled field))
        true
  | Some CaseCombobox =>
      item star
        (Ui.Combobox
           (if truthy (optStr (State.value state))
            then match find (fun language =>
                               optStrIs (State.value state) (Ui.lang_value language))
                            languages with
                 | Some language => VStr (Ui.lang_label language)
                 | None => VUndef
                 end
            else VStr "Select language")
           (map (fun language =>
                   {| Ui.item_value := Ui.lang_label language;
                      Ui.item_key := Ui.lang_value language;
                      Ui.item_onSelect :=
                        State.setValue state (Ui.lang_value language)
                        ++ Form.setValue form (FormFieldType.name field)
                             (VStr (Ui.lang_value language)) [];
                      Ui.item_checked :=
                        optStrIs (State.value state) (Ui.lang_value language);
                      Ui.item_text := Ui.lang_label language |})
                languages))
        true
  | Some CaseDatePicker =>
      item star
        (Ui.Calendar (State.date state) (State.date state)
           (fun date => State.setDate state date))
        true
  | Some CaseDatetimePicker =>
      item star
        (Ui.DatetimePicker field (State.datetime state)
           (fun datetime =>
              match datetime with
              | Some d => State.setDatetime state d
              | None => []
              end)
           [ ["months"; "days"; "years"]; ["hours"; "minutes"; "am/pm"] ])
        true
  | Some CaseFileInput =>
      item star
        (Ui.FileUploader (State.files state)
           (fun files => State.setFiles state files)
           5 (1024 * 1024 * 4) true
           (match State.files state with
            | Some fs => map file_name fs
            | None => []
            end))
        false
  | Some CaseInput =>
      item star
        (Ui.Input (FormFieldType.placeholder field)
           (FormFieldType.disabled field) (FormFieldType.type field))
        true
  | Some CaseInputOTP =>
      item star
        (Ui.InputOTP 6
           [ Ui.InputOTPGroup [0; 1; 2]; Ui.InputOTPSeparator;
             Ui.InputOTPGroup [3; 4; 5] ])
        true
  | Some CaseLocationInput =>
      item star
        (Ui.LocationSelector
           (fun country =>
              State.setCountryName state (countryNameOrEmpty country)
              ++ Form.setValue form (FormFieldType.name field)
                   (VArr [ VStr (countryNameOrEmpty country);
                           VStr (strOrEmpty (State.stateName state)) ]) [])
           (fun stateData =>
              State.setStateName state (countryNameOrEmpty stateData)
              ++ Form.setValue form (FormFieldType.name field)
                   (VArr [ VStr (strOrEmpty (State.countryName state));
                           VStr (countryNameOrEmpty stateData) ]) []))
        true
  | Some CaseMultiSelect =>
      item None
        (Ui.MultiSelector (State.selectedValues state)
           (fun newValues =>
              State.setSelectedValues state newValues
              ++ Form.setValue form (FormFieldType.name field)
                   (VArr (map VStr newValues))
                   [("shouldValidate", true); ("shouldDirty", true)])
           "Select languages"
           [ ("React", "React"); ("Vue", "Vue"); ("Svelte", "Svelte") ])
        true
  | Some CaseSelect =>
      item star
        (Ui.Select (FormFieldType.onChange field) "m@example.com"
           "Select a verified email to display"
           [ ("m@example.com", "m@example.com");
             ("m@google.com", "m@google.com");
             ("m@support.com", "m@support.com") ])
        true
  | Some CaseSlider =>
      let min := orElse (FormFieldType.min field) (VNum 0) in
      let max := orElse (FormFieldType.max field) (VNum 100) in
      let step := orElse (FormFieldType.step field) (VNum 1) in
      let defaultValue := 5 in
      Some {| Ui.label := FormFieldType.label field;
              Ui.requiredMark := None;
              Ui.control :=
                Ui.Slider min max step [defaultValue]
                  (fun value =>
                     match value with
                     | v0 :: _ => Ok (State.setValue state (numToString v0))
                     | [] => Throw (TypeError
                               "Cannot read properties of undefined (reading 'toString')")
                     end);
              Ui.description :=
                [ FormFieldType.description field;
                  VStr " Selected value is ";
                  orElse (optStr (State.value state)) (VNum defaultValue);
                  VStr ", minimun valus is "; min;
                  VStr ", maximim values is "; max;
                  VStr ", step size is "; step ];
              Ui.formMessage := true |}
  | Some CaseSignatureInput =>
      item None
        (Ui.SignatureInput (State.canvasRef state)
           (fun signature =>
              match signature with
              | Some s => if truthy (VStr s)
                          then FormFieldType.onChange field (VStr s)
                          else []
              | None => []
              end))
        true
  | Some CaseSmartDatetimeInput =>
      item None
        (Ui.SmartDatetimeInput (State.smartDatetime state)
           (fun newDate => State.setSmartDatetime state newDate)
           "e.g. tomorrow at 3pm")
        true
  | Some CaseSwitch =>
      item star
        (Ui.Switch (State.checked state)
           (State.setChecked state (negb (State.checked state))))
        false
  | Some CaseTagsInput =>
      item None
        (Ui.TagsInput (State.tagsValue state)
           (fun newTags =>
              State.setTagsValue state newTags
              ++ Form.setValue form (FormFieldType.name field)
                   (VArr (map VStr newTags))
                   [("shouldValidate", true); ("shouldDirty", true)])
           "Enter your tags")
        true
  | Some CaseTextarea =>
      item None (Ui.Textarea (FormFieldType.placeholder field)) true
  | Some CasePassword =>
      item None (Ui.PasswordInput "password") true
  | Some CasePhone =>
      item None (Ui.PhoneInput "TR") true
  | None => None
  end.

(* ===================================================================== *)
(** ** React: elements handed to the form library *)
(* ===================================================================== *)

Module React.

(** The [field] object a [<FormField render>] callback receives. *)
Record ControllerField : Type := { cf_name : Val; cf_value : Val }.

(** The result of [React.cloneElement(element, {...formField})]. *)
Record Cloned : Type := {
  element : Ui.FormItem;
  props : ControllerField
}.

(** [React.cloneElement] rejects [null] and [undefined]. *)
Definition cloneElement (element : option Ui.FormItem)
    (props : ControllerField) : result Cloned :=
  match element with
  | Some e => Ok {| element := e; props := props |}
  | None =>
      Throw (Error
        "React.cloneElement(...): The argument must be a React element, but you passed null.")
  end.

(** [<FormItem className><FormControl>{cloned}</FormControl></FormItem>] *)
Record Slot : Type := {
  className : option string;
  content : Cloned
}.

(** [<FormField key control name render>]; [render] runs when the element
    is mounted. *)
Record FormField : Type := {
  key : Val;
  name : Val;
  render : ControllerField -> result Slot
}.

(** The render callbacks of a list of children: [null] children render
    nothing, each [<FormField>] calls its [render] with the controller's
    field for its name, and an exception of a callback is the exception of
    the render.  This is the mount of fields whose names the form library
    accepts; [mountChecked] below adds the library's reading of the name. *)
Fixpoint mount (controller : Val -> ControllerField)
    (children : list (option FormField)) : result (list (Val * Slot)) :=
  match children with
  | [] => Ok []
  | None :: rest => mount controller rest
  | Some ff :: rest =>
      slot <- render ff (controller (name ff)) ;;
      slots <- mount controller rest ;;
      Ok ((name ff, slot) :: slots)
  end.

(** The form library reads [name] as a string when a [<FormField>] is
    mounted, before it calls [render]: a name that is absent or is not a
    string makes it throw a TypeError.  The message is the library's own
    and is not modelled; the text below only says what was wrong. *)
Definition nameTypeError : Exn := TypeError "the name of a field is not a string".

Definition acceptsName (name : Val) : bool :=
  match name with
  | VStr _ => true
  | _ => false
  end.

(** Mounting with the form library's reading of the name: as [mount], but
    a [<FormField>] whose name is not a string throws before its [render]
    is called. *)
Fixpoint mountChecked (controller : Val -> ControllerField)
    (children : list (option FormField)) : result (list (Val * Slot)) :=
  match children with
  | [] => Ok []
  | None :: rest => mountChecked controller rest
  | Some ff :: rest =>
      if acceptsName (name ff)
      then slot <- render ff (controller (name ff)) ;;
           slots <- mountChecked controller rest ;;
           Ok ((name ff, slot) :: slots)
      else Throw nameTypeError
  end.

End React.

(** [array.map((x, index) => ...)] *)
Fixpoint mapi_from {A B} (i : Z) (f : A -> Z -> B) (l : list A) : list B :=
  match l with
  | [] => []
  | a :: l' => f a i :: mapi_from (i + 1) f l'
  end.

Definition mapi {A B} (f : A -> Z -> B) (l : list A) : list B :=
  mapi_from 0 f l.

(* ===================================================================== *)
(** ** form-renderer: the JSON-driven renderer *)
(* ===================================================================== *)

Module FormRenderer.

Definition typeToVariant : list (string * string) :=
  [ ("text", "Input");
    ("email", "Input");
    ("textarea", "Textarea");
    ("password", "Password");
    ("checkbox", "Checkbox");
    ("select", "Select");
    ("file", "File Input");
    ("date", "Date Picker");
    ("datetime", "Datetime Picker");
    ("phone", "Phone") ].

(** [typeToVariant[k]]: an own entry of the literal, else what the literal
    inherits from [Object.prototype], else [undefined]. *)
Definition typeToVariant_get (k : string) : option VariantVal :=
  match assoc k typeToVariant with
  | Some v => Some (VariantStr v)
  | None =>
      if strIn k objectPrototypeKeys then Some (VariantInherited k) else None
  end.

(** [jsonField.type.charAt(0).toUpperCase() + jsonField.type.slice(1)];
    only a string has [charAt]. *)
Definition capitalized (type : Val) : result string :=
  match type with
  | VStr s => Ok (toUpperCase (charAt0 s) ++ slice1 s)%string
  | VUndef =>
      Throw (TypeError "Cannot read properties of undefined (reading 'charAt')")
  | VNull =>
      Throw (TypeError "Cannot read properties of null (reading 'charAt')")
  | _ => Throw (TypeError "jsonField.type.charAt is not a function")
  end.

Definition convertJsonFieldToFormField (jsonField : Val)
    : result FormFieldType.t :=
  type <- getProp jsonField "type" ;;
  variant <- match typeToVariant_get (toString type) with
             | Some v => Ok v
             | None => s <- capitalized type ;; Ok (VariantStr s)
             end ;;
  label <- getProp jsonField "label" ;;
  name <- getProp jsonField "name" ;;
  placeholder <- getProp jsonField "placeholder" ;;
  required <- getProp jsonField "required" ;;
  description <- getProp jsonField "description" ;;
  options <- getProp jsonField "options" ;;
  disabled <- getProp jsonField "disabled" ;;
  value <- getProp jsonField "value" ;;
  checked <- getProp jsonField "checked" ;;
  Ok {| FormFieldType.variant := variant;
        FormFieldType.type := orElse type (VStr "");
        FormFieldType.label := label;
        FormFieldType.name := name;
        FormFieldType.placeholder := placeholder;
        FormFieldType.required := required;
        FormFieldType.description := description;
        FormFieldType.options := options;
        FormFieldType.disabled := orElse disabled (VBool false);
        FormFieldType.value := orElse value (VStr "");
        FormFieldType.setValue := fun _ => [];
        FormFieldType.checked := orElse checked (VBool false);
        FormFieldType.onChange := fun _ => [];
        FormFieldType.onSelect := fun _ => [];
        FormFieldType.rowIndex := VNum 0;
        FormFieldType.min := VUndef;
        FormFieldType.max := VUndef;
        FormFieldType.step := VUndef;
        FormFieldType.length := VUndef;
        FormFieldType.defaultValue := VUndef |}.

(** [formData.fields.map(convertJsonFieldToFormField)] *)
Definition formFields (formData : Val) : result (list FormFieldType.t) :=
  fields <- getProp formData "fields" ;;
  match fields with
  | VArr l => mapM convertJsonFieldToFormField l
  | VUndef =>
      Throw (TypeError "Cannot read properties of undefined (reading 'map')")
  | VNull =>
      Throw (TypeError "Cannot read properties of null (reading 'map')")
  | _ => Throw (TypeError "formData.fields.map is not a function")
  end.

(** The eleven [useState] hooks and the [useRef] of the component, and the
    writes the form library has received. *)
Record Hooks : Type := {
  checked : bool;
  smartDatetime : option Date;
  tagsValue : list string;
  canvasRef : option nat;
  value : string;
  date : option Date;
  selectedValues : list string;
  countryName : string;
  stateName : string;
  files : option (list File);
  datetime : option Date;
  formWrites : list (Val * Val)
}.

(** The hooks as first created: [useState(false)], [useState('')], ... *)
Definition initial : Hooks :=
  {| checked := false; smartDatetime := None; tagsValue := [];
     canvasRef := None; value := ""; date := None; selectedValues := [];
     countryName := ""; stateName := ""; files := None; datetime := None;
     formWrites := [] |}.

(** The object literal passed as [state] to every [renderFormField] call. *)
Definition bag (h : Hooks) : State.t :=
  {| State.checked := checked h;
     State.setChecked := fun b => [SetChecked b];
     State.smartDatetime := smartDatetime h;
     State.setSmartDatetime := fun d => [SetSmartDatetime d];
     State.tagsValue := tagsValue h;
     State.setTagsValue := fun t => [SetTagsValue t];
     State.canvasRef := canvasRef h;
     State.value := Some (value h);
     State.setValue := fun s => [SetValue s];
     State.date := date h;
     State.setDate := fun d => [SetDate d];
     State.selectedValues := selectedValues h;
     State.setSelectedValues := fun l => [SetSelectedValues l];
     State.countryName := countryName h;
     State.setCountryName := fun n => [SetCountryName n];
     State.stateName := stateName h;
     State.setStateName := fun n => [SetStateName n];
     State.files := files h;
     State.setFiles := fun f => [SetFiles f];
     State.datetime := datetime h;
     State.setDatetime := fun d => [SetDatetime d] |}.

(** The [form] returned by [useForm].  The schema and the default values
    it is created with come from [generateZodSchema] and
    [generateDefaultValues], which are not among the sources; the handlers
    only call its [setValue]. *)
Definition form : Form.t :=
  {| Form.setValue := fun name v options => [FormSetValue name v options] |}.

(** [const renderedFields = formFields.map((field, index) => ...)] *)
Definition renderedFields (fields : list FormFieldType.t) (h : Hooks)
    : list (option React.FormField) :=
  mapi (fun field index =>
          let renderedField := renderFormField field form (bag h) in
          match renderedField with
          | None => None
          | Some _ =>
              Some {| React.key := orElse (FormFieldType.name field) (VNum index);
                      React.name := FormFieldType.name field;
                      React.render := fun formField =>
                        cloned <- React.cloneElement renderedField formField ;;
                        Ok {| React.className := None;
                              React.content := cloned |} |}
          end)
       fields.

(** What the setters and [form.setValue] do to the component's state: a
    setter replaces its own slot, [form.setValue] is recorded. *)
Definition applyCmd (h : Hooks) (c : Cmd) : Hooks :=
  let slots chk sdt tags v d sel cn sn fs dt :=
    {| checked := chk; smartDatetime := sdt; tagsValue := tags;
       canvasRef := canvasRef h; value := v; date := d;
       selectedValues := sel; countryName := cn; stateName := sn;
       files := fs; datetime := dt; formWrites := formWrites h |} in
  match c with
  | SetChecked x =>
      slots x (smartDatetime h) (tagsValue h) (value h) (date h)
        (selectedValues h) (countryName h) (stateName h) (files h) (datetime h)
  | SetSmartDatetime x =>
      slots (checked h) (Some x) (tagsValue h) (value h) (date h)
        (selectedValues h) (countryName h) (stateName h) (files h) (datetime h)
  | SetTagsValue x =>
      slots (checked h) (smartDatetime h) x (value h) (date h)
        (selectedValues h) (countryName h) (stateName h) (files h) (datetime h)
  | SetValue x =>
      slots (checked h) (smartDatetime h) (tagsValue h) x (date h)
        (selectedValues h) (countryName h) (stateName h) (files h) (datetime h)
  | SetDate x =>
      slots (checked h) (smartDatetime h) (tagsValue h) (value h) x
        (selectedValues h) (countryName h) (stateName h) (files h) (datetime h)
  | SetSelectedValues x =>
      slots (checked h) (smartDatetime h) (tagsValue h) (value h) (date h)
        x (countryName h) (stateName h) (files h) (datetime h)
  | SetCountryName x =>
      slots (checked h) (smartDatetime h) (tagsValue h) (value h) (date h)
        (selectedValues h) x (stateName h) (files h) (datetime h)
  | SetStateName x =>
      slots (checked h) (smartDatetime h) (tagsValue h) (value h) (date h)
        (selectedValues h) (countryName h) x (files h) (datetime h)
  | SetFiles x =>
      slots (checked h) (smartDatetime h) (tagsValue h) (value h) (date h)
        (selectedValues h) (countryName h) (stateName h) x (datetime h)
  | SetDatetime x =>
      slots (checked h) (smartDatetime h) (tagsValue h) (value h) (date h)
        (selectedValues h) (countryName h) (stateName h) (files h) (Some x)
  | FormSetValue n v _ =>
      {| checked := checked h; smartDatetime := smartDatetime h;
         tagsValue := tagsValue h; canvasRef := canvasRef h;
         value := value h; date := date h;
         selectedValues := selectedValues h; countryName := countryName h;
         stateName := stateName h; files := files h; datetime := datetime h;
         formWrites := (n, v) :: formWrites h |}
  end.

Definition apply (h : Hooks) (cs : Cmds) : Hooks := fold_left applyCmd cs h.

End FormRenderer.

(* ===================================================================== *)
(** ** form-preview: the builder's preview, with grouped rows *)
(* ===================================================================== *)

Module FormPreview.

(** [FormFieldOrGroup = FormFieldType | FormFieldType[]] *)
Inductive FormFieldOrGroup : Type :=
| Field (f : FormFieldType.t)
| Group (fs : list FormFieldType.t).

(** The object literal both branches of [renderFormFields] pass as [state]:
    constant values and setters that do nothing. *)
Definition previewState : State.t :=
  {| State.checked := false;
     State.setChecked := fun _ => [];
     State.smartDatetime := None;
     State.setSmartDatetime := fun _ => [];
     State.tagsValue := [];
     State.setTagsValue := fun _ => [];
     State.canvasRef := None;
     State.value := Some ""%string;
     State.setValue := fun _ => [];
     State.date := None;
     State.setDate := fun _ => [];
     State.selectedValues := [];
     State.setSelectedValues := fun _ => [];
     State.countryName := "";
     State.setCountryName := fun _ => [];
     State.stateName := "";
     State.setStateName := fun _ => [];
     State.files := None;
     State.setFiles := fun _ => [];
     State.datetime := None;
     State.setDatetime := fun _ => [] |}.

(** The grid of a row has twelve columns: [grid grid-cols-12 gap-4]. *)
Definition gridCols : Z := 12.

(** [const colSpan = fieldOrGroup.length === 2 ? 6 : 4] *)
Definition colSpan (groupLength : Z) : Z :=
  if groupLength =? 2 then 6 else 4.

Inductive Node : Type :=
| Row (key : Z) (className : string) (children : list React.FormField)
| Single (child : React.FormField).

(** The [<FormField>] of one field; [className] is that of its
    [<FormItem>], when it has one. *)
Definition formFieldOf (key : Val) (className : option string)
    (field : FormFieldType.t) (form : Form.t) : React.FormField :=
  {| React.key := key;
     React.name := FormFieldType.name field;
     React.render := fun formField =>
       cloned <- React.cloneElement
                   (renderFormField field form previewState) formField ;;
       Ok {| React.className := className; React.content := cloned |} |}.

Definition renderFormFields (fields : list FormFieldOrGroup) (form : Form.t)
    : list Node :=
  mapi (fun fieldOrGroup index =>
          match fieldOrGroup with
          | Group fs =>
              let colSpan := colSpan (Z.of_nat (List.length fs)) in
              Row index "grid grid-cols-12 gap-4"
                (map (fun field =>
                        formFieldOf (FormFieldType.name field)
                          (Some ("col-span-" ++ numToString colSpan)%string)
                          field form)
                     fs)
          | Field f => Single (formFieldOf (VNum index) None f form)
          end)
       fields.

(** Mounting the nodes, rows included. *)
Definition mountNode (controller : Val -> React.ControllerField) (n : Node)
    : result (list (Val * React.Slot)) :=
  match n with
  | Row _ _ children => React.mount controller (map Some children)
  | Single child => React.mount controller [Some child]
  end.

Fixpoint mountNodes (controller : Val -> React.ControllerField)
    (ns : list Node) : result (list (list (Val * React.Slot))) :=
  match ns with
  | [] => Ok []
  | n :: rest =>
      slots <- mountNode controller n ;;
      others <- mountNodes controller rest ;;
      Ok (slots :: others)
  end.



End FormPreview.

(* ===================================================================== *)
(** ** form-json-builder: the JSON editor *)
(* ===================================================================== *)

Module FormJsonBuilder.

Definition defaultFormJson : Val :=
  VObj [ ("fields",
          VArr [ VObj [ ("type", VStr "text");
                        ("label", VStr "Full Name");
                        ("placeholder", VStr "Enter your name");
                        ("required", VBool true);
                        ("name", VStr "fullName") ];
                 VObj [ ("type", VStr "email");
                        ("label", VStr "Email");
                        ("placeholder", VStr "Enter your email");
                        ("required", VBool true);
                        ("name", VStr "email") ];
                 VObj [ ("type", VStr "textarea");
                        ("label", VStr "Bio");
                        ("name", VStr "bio");
                        ("placeholder", VStr "Tell us about yourself");
                        ("rows", VNum 4);
                        ("maxLength", VNum 500);
                        ("description", VStr "Maximum 500 characters") ] ]) ].

Inductive Toast : Type :=
| ToastSuccess (msg : string)
| ToastError (msg : string).

(** The four [useState] hooks of [FormJsonBuilder] and the toasts shown. *)
Record St : Type := {
  jsonValue : string;
  formData : Val;
  error : string;
  key : Z;
  toasts : list Toast
}.

Section WithJSON.

(** [JSON.parse] returns a value or throws; [JSON.stringify(v, null, 2)]. *)
Variable JSON_parse : string -> result Val.
Variable JSON_stringify : Val -> string.

Definition initial : St :=
  {| jsonValue := JSON_stringify defaultFormJson;
     formData := defaultFormJson;
     error := "";
     key := 0;
     toasts := [] |}.

Definition handleJsonChange (value : string) (st : St) : St :=
  match JSON_parse value with
  | Ok parsed =>
      {| jsonValue := value; formData := parsed; error := "";
         key := key st; toasts := toasts st |}
  | Throw _ =>
      {| jsonValue := value; formData := formData st;
         error := "Invalid JSON format";
         key := key st; toasts := toasts st |}
  end.

Definition handleRefresh (st : St) : St :=
  match JSON_parse (jsonValue st) with
  | Ok parsed =>
      {| jsonValue := jsonValue st; formData := parsed; error := "";
         key := key st + 1;
         toasts := toasts st ++ [ToastSuccess "Form refreshed successfully"] |}
  | Throw _ =>
      {| jsonValue := jsonValue st; formData := formData st;
         error := "Invalid JSON format";
         key := key st;
         toasts := toasts st
                   ++ [ToastError "Failed to refresh form: Invalid JSON format"] |}
  end.

(** What the user does in the editor. *)
Inductive Event : Type :=
| Change (value : string)
| Refresh.

Definition step (st : St) (e : Event) : St :=
  match e with
  | Change value => handleJsonChange value st
  | Refresh => handleRefresh st
  end.

Definition run (st : St) (es : list Event) : St := fold_left step es st.

(** The form definition the last successful parse of a run produced, if
    there was one: the text parsed is the one changed to, or, for a
    refresh, the text the editor holds. *)
Fixpoint lastParsed (text : string) (es : list Event) (acc : option Val)
    : option Val :=
  match es with
  | [] => acc
  | Change value :: es' =>
      lastParsed value es'
        (match JSON_parse value with Ok v => Some v | Throw _ => acc end)
  | Refresh :: es' =>
      lastParsed text es'
        (match JSON_parse text with Ok v => Some v | Throw _ => acc end)
  end.

End WithJSON.

End FormJsonBuilder.

(* ===================================================================== *)
(** ** Observing a rendered control *)
(* ===================================================================== *)

(** What a user can do to a control, with the argument the widget hands to
    the handler. *)
Inductive Interaction : Type :=
| Toggle
| SelectItem (i : nat)
| PickDate (d : option Date)
| DropFiles (fs : option (list File))
| PickCountry (c : option Ui.Country)
| PickState (s : option Ui.Country)
| PickValues (vs : list string)
| PickOption (v : Val)
| Slide (value : list Z)
| Sign (signature : option string)
| TypeDate (d : Date).

(** Running the handler a control has for an interaction; [None] when the
    control has no handler for it. *)
Definition fire (c : Ui.Control) (i : Interaction) : option (result Cmds) :=
  match c, i with
  | Ui.Checkbox _ h _, Toggle => Some (Ok h)
  | Ui.Switch _ h, Toggle => Some (Ok h)
  | Ui.Combobox _ items, SelectItem n =>
      option_map (fun it => Ok (Ui.item_onSelect it)) (nth_error items n)
  | Ui.Calendar _ _ h, PickDate d => Some (Ok (h d))
  | Ui.DatetimePicker _ _ h _, PickDate d => Some (Ok (h d))
  | Ui.FileUploader _ h _ _ _ _, DropFiles fs => Some (Ok (h fs))
  | Ui.LocationSelector h _, PickCountry c => Some (Ok (h c))
  | Ui.LocationSelector _ h, PickState s => Some (Ok (h s))
  | Ui.MultiSelector _ h _ _, PickValues vs => Some (Ok (h vs))
  | Ui.TagsInput _ h _, PickValues vs => Some (Ok (h vs))
  | Ui.Select h _ _ _, PickOption v => Some (Ok (h v))
  | Ui.Slider _ _ _ _ h, Slide value => Some (h value)
  | Ui.SignatureInput _ h, Sign s => Some (Ok (h s))
  | Ui.SmartDatetimeInput _ h _, TypeDate d => Some (Ok (h d))
  | _, _ => None
  end.

(** The flag a Checkbox or a Switch displays. *)
Definition checkedOf (c : Ui.Control) : option bool :=
  match c with
  | Ui.Checkbox b _ _ => Some b
  | Ui.Switch b _ => Some b
  | _ => None
  end.

(** The values a choice control offers. *)
Definition choices (c : Ui.Control) : list string :=
  match c with
  | Ui.Combobox _ items => map Ui.item_key items
  | Ui.MultiSelector _ _ _ items => map fst items
  | Ui.Select _ _ _ items => map fst items
  | _ => []
  end.

(** The character slots of an OTP control. *)
Definition otpSlots (c : Ui.Control) : list Z :=
  match c with
  | Ui.InputOTP _ children =>
      flat_map (fun ch => match ch with
                          | Ui.InputOTPGroup slots => slots
                          | Ui.InputOTPSeparator => []
                          end) children
  | _ => []
  end.

Definition isStateWrite (c : Cmd) : bool :=
  match c with
  | FormSetValue _ _ _ => false
  | _ => true
  end.

(** A command writes the bound form value under [name]. *)
Definition writesForm (name : Val) (cs : Cmds) : Prop :=
  exists v options, In (FormSetValue name v options) cs.

(** No command of the list reaches the form. *)
Definition noFormWrite (cs : Cmds) : Prop :=
  forall c, In c cs -> isStateWrite c = true.

(** A field that sets only its variant, its name and, for the tests of the
    choice controls and the sliders, its options and its numeric
    constraints. *)
Definition fieldWith (variant name : string) (options min max step
    length defaultValue : Val) : FormFieldType.t :=
  {| FormFieldType.variant := VariantStr variant;
     FormFieldType.type := VStr "";
     FormFieldType.label := VStr name;
     FormFieldType.name := VStr name;
     FormFieldType.placeholder := VUndef;
     FormFieldType.required := VUndef;
     FormFieldType.description := VUndef;
     FormFieldType.options := options;
     FormFieldType.disabled := VBool false;
     FormFieldType.value := VStr "";
     FormFieldType.setValue := fun _ => [];
     FormFieldType.checked := VBool false;
     FormFieldType.onChange := fun _ => [];
     FormFieldType.onSelect := fun _ => [];
     FormFieldType.rowIndex := VNum 0;
     FormFieldType.min := min;
     FormFieldType.max := max;
     FormFieldType.step := step;
     FormFieldType.length := length;
     FormFieldType.defaultValue := defaultValue |}.

Definition fieldOf (variant name : string) : FormFieldType.t :=
  fieldWith variant name VUndef VUndef VUndef VUndef VUndef VUndef.

(** The controller used in the examples: it echoes the name. *)
Definition echoController (name : Val) : React.ControllerField :=
  {| React.cf_name := name; React.cf_value := VUndef |}.

(** The classes of the dispatcher's cases by what their handlers reach. *)
Definition writesBoth (c : Case) : bool :=
  match c with
  | CaseCombobox | CaseLocationInput | CaseMultiSelect | CaseTagsInput => true
  | _ => false
  end.

Definition writesStateOnly (c : Case) : bool :=
  match c with
  | CaseCheckbox | CaseSwitch | CaseDatePicker | CaseDatetimePicker
  | CaseFileInput | CaseSlider | CaseSmartDatetimeInput => true
  | _ => false
  end.

Definition callsFieldOnChange (c : Case) : bool :=
  match c with
  | CaseSelect | CaseSignatureInput => true
  | _ => false
  end.

Definition unwired (c : Case) : bool :=
  match c with
  | CaseInput | CaseInputOTP | CaseTextarea | CasePassword | CasePhone => true
  | _ => false
  end.

(** The setter call that belongs to the slot of each case's control. *)
Definition ownSlot (c : Case) (x : Cmd) : bool :=
  match c, x with
  | CaseCheckbox, SetChecked _ | CaseSwitch, SetChecked _ => true
  | CaseCombobox, SetValue _ | CaseSlider, SetValue _ => true
  | CaseDatePicker, SetDate _ => true
  | CaseDatetimePicker, SetDatetime _ => true
  | CaseFileInput, SetFiles _ => true
  | CaseLocationInput, SetCountryName _ => true
  | CaseLocationInput, SetStateName _ => true
  | CaseMultiSelect, SetSelectedValues _ => true
  | CaseSmartDatetimeInput, SetSmartDatetime _ => true
  | CaseTagsInput, SetTagsValue _ => true
  | _, _ => false
  end.

Definition isChoiceCase (c : Case) : bool :=
  match c with
  | CaseSelect | CaseMultiSelect | CaseCombobox => true
  | _ => false
  end.

(** The choices each choice control is built with. *)
Definition builtinChoices (c : Case) : list string :=
  match c with
  | CaseSelect => ["m@example.com"; "m@google.com"; "m@support.com"]
  | CaseMultiSelect => ["React"; "Vue"; "Svelte"]
  | CaseCombobox => map Ui.lang_value languages
  | _ => []
  end.

(** The values of a field's own [options], when it has an array of
    [{label, value}] objects. *)
Definition optionValues (options : Val) : list Val :=
  match options with
  | VArr l => map (fun o => match getProp o "value" with
                            | Ok v => v
                            | Throw _ => VUndef
                            end) l
  | _ => []
  end.

(** The class name of a group member's [<FormItem>]. *)
Definition spanClass (members : nat) : string :=
  if (members =? 2)%nat then "col-span-6" else "col-span-4".

(** The class names of the slots a mount produced. *)
Definition classNames (r : result (list (Val * React.Slot)))
    : option (list (option string)) :=
  match r with
  | Ok slots => Some (map (fun s => React.className (snd s)) slots)
  | Throw _ => None
  end.

(** The dispatcher has no case for the field's variant. *)
Definition unknownVariant (f : FormFieldType.t) : bool :=
  match switchCase (FormFieldType.variant f) with
  | Some _ => false
  | None => true
  end.

(** Some field of the list, alone or in a group, has an unknown variant. *)
Definition hasUnknown (fields : list FormPreview.FormFieldOrGroup) : bool :=
  existsb (fun g => match g with
                    | FormPreview.Field f => unknownVariant f
                    | FormPreview.Group fs => existsb unknownVariant fs
                    end) fields.

(** The exception of [React.cloneElement(null, ...)]. *)
Definition cloneNullError : Exn :=
  Error "React.cloneElement(...): The argument must be a React element, but you passed null.".

(** The fields the JSON-driven renderer shows: those the dispatcher has a
    control for, in order, each under its name. *)
Definition shownFields (controller : Val -> React.ControllerField)
    (h : FormRenderer.Hooks) (fields : list FormFieldType.t)
    : list (Val * React.Slot) :=
  flat_map
    (fun field =>
       match renderFormField field FormRenderer.form (FormRenderer.bag h) with
       | Some item =>
           [ (FormFieldType.name field,
              {| React.className := None;
                 React.content :=
                   {| React.element := item;
                      React.props := controller (FormFieldType.name field) |} |}) ]
       | None => []
       end)
    fields.

(** The documented field types that are written with a hyphen. *)
Definition hyphenatedTypes : list string :=
  [ "multi-select"; "tags-input"; "input-otp"; "smart-datetime";
    "signature-input"; "location-input"; "date-picker"; "datetime-picker" ].

(** The type string with its first letter in upper case. *)
Definition capitalize (t : string) : string :=
  (toUpperCase (charAt0 t) ++ slice1 t)%string.

(** The variant a conversion produced, if it returned. *)
Definition variantOf (r : result FormFieldType.t) : option VariantVal :=
  match r with
  | Ok f => Some (FormFieldType.variant f)
  | Throw _ => None
  end.

(** The interactive control inside a mounted slot. *)
Definition controlOf (s : React.Slot) : Ui.Control :=
  Ui.control (React.element (React.content s)).

(** The text an editor event submits to [JSON.parse]. *)
Definition textOf (e : FormJsonBuilder.Event) (st : FormJsonBuilder.St)
    : string :=
  match e with
  | FormJsonBuilder.Change value => value
  | FormJsonBuilder.Refresh => FormJsonBuilder.jsonValue st
  end.

(** The toast an editor event shows when the text does not parse. *)
Definition failureToasts (e : FormJsonBuilder.Event)
    : list FormJsonBuilder.Toast :=
  match e with
  | FormJsonBuilder.Change _ => []
  | FormJsonBuilder.Refresh =>
      [FormJsonBuilder.ToastError "Failed to refresh form: Invalid JSON format"]
  end.

(** A parser for the examples: it accepts the empty object only. *)
Definition parseEmptyObject (s : string) : result Val :=
  if (s =? "{}")%string then Ok (VObj [])
  else Throw (SyntaxError "Unexpected token").



(** The commands one interaction with the control of [field] issues, when
    the control has a handler for it and the handler returns. *)
Definition handle (field : FormFieldType.t) (form : Form.t) (state : State.t)
    (i : Interaction) : Cmds :=
  match renderFormField field form state with
  | Some item =>
      match fire (Ui.control item) i with
      | Some (Ok cs) => cs
      | _ => []
      end
  | None => []
  end.

(** One interaction in the JSON-driven renderer: the handler of the control
    rendered from the current hooks runs, and the hooks take its commands
    for the next render. *)
Definition interact (h : FormRenderer.Hooks) (field : FormFieldType.t)
    (i : Interaction) : FormRenderer.Hooks :=
  FormRenderer.apply h
    (handle field FormRenderer.form (FormRenderer.bag h) i).

(** The control the JSON-driven renderer shows for [field]. *)
Definition shownControl (h : FormRenderer.Hooks) (field : FormFieldType.t)
    : option Ui.Control :=
  option_map Ui.control
    (renderFormField field FormRenderer.form (FormRenderer.bag h)).

(** The characters a printed integer can start with. *)
Definition digitsAndMinus : list ascii :=
  [ "0"; "1"; "2"; "3"; "4"; "5"; "6"; "7"; "8"; "9"; "-" ]%char.

(** [v.k], or [undefined] where the access throws. *)
Definition propOf (v : Val) (k : string) : Val :=
  match getProp v k with
  | Ok x => x
  | Throw _ => VUndef
  end.

Definition isString (v : Val) : bool :=
  match v with
  | VStr _ => true
  | _ => false
  end.

(** The lower-case letter of an upper-case ASCII letter. *)
Definition lowerAscii (c : ascii) : ascii :=
  let n := nat_of_ascii c in
  if (andb (65 <=? n) (n <=? 90))%nat then ascii_of_nat (n + 32) else c.

Definition lowerFirst (s : string) : string :=
  match s with
  | EmptyString => EmptyString
  | String c s' => String (lowerAscii c) s'
  end.

(** The type strings the JSON-driven renderer has a control for: the keys
    of [typeToVariant], the [case] labels themselves, and the labels with
    their first letter in lower case. *)
Definition renderedTypes : list string :=
  map fst FormRenderer.typeToVariant
  ++ map fst caseLabels
  ++ map lowerFirst (map fst caseLabels).

(** The number of refreshes among the events. *)
Definition refreshes (es : list FormJsonBuilder.Event) : nat :=
  List.length
    (filter (fun e => match e with
                      | FormJsonBuilder.Refresh => true
                      | FormJsonBuilder.Change _ => false
                      end) es).

(** The number of success toasts in a list. *)
Definition successes (ts : list FormJsonBuilder.Toast) : nat :=
  List.length
    (filter (fun t => match t with
                      | FormJsonBuilder.ToastSuccess _ => true
                      | FormJsonBuilder.ToastError _ => false
                      end) ts).

(** A parser and a printer for the examples: the printer writes every
    value as [D], which the parser reads as the default form. *)
Definition parseD (s : string) : result Val :=
  if (s =? "D")%string then Ok FormJsonBuilder.defaultFormJson
  else Throw (SyntaxError "Unexpected token").

Definition printD (v : Val) : string := "D".

(** The editor and the preview agree exactly when no error is shown: either
    the form data is the parse of the editor's text, or the error is shown
    and the text does not parse. *)
Definition inSync (JSON_parse : string -> result Val)
    (st : FormJsonBuilder.St) : Prop :=
  (FormJsonBuilder.error st = ""%string
   /\ JSON_parse (FormJsonBuilder.jsonValue st)
      = Ok (FormJsonBuilder.formData st))
  \/ (FormJsonBuilder.error st = "Invalid JSON format"%string
      /\ isOk (JSON_parse (FormJsonBuilder.jsonValue st)) = false).

(** The values a Multi Select or a Tags Input displays. *)
Definition displayedValues (c : option Ui.Control) : option (list string) :=
  match c with
  | Some (Ui.MultiSelector values _ _ _) => Some values
  | Some (Ui.TagsInput value _ _) => Some value
  | _ => None
  end.

(** The date a Date Picker, a Datetime Picker or a Smart Datetime Input
    displays; the outer [None] is a control of another kind. *)
Definition displayedDate (c : option Ui.Control) : option (option Date) :=
  match c with
  | Some (Ui.Calendar _ selected _) => Some selected
  | Some (Ui.DatetimePicker _ value _ _) => Some value
  | Some (Ui.SmartDatetimeInput value _ _) => Some value
  | _ => None
  end.

(** The files a File Input holds and the names it lists. *)
Definition displayedFiles (c : option Ui.Control)
    : option (option (list File) * list string) :=
  match c with
  | Some (Ui.FileUploader value _ _ _ _ items) => Some (value, items)
  | _ => None
  end.

(** The text on a Combobox button and the check marks of its items. *)
Definition displayedLanguage (c : option Ui.Control)
    : option (Val * list bool) :=
  match c with
  | Some (Ui.Combobox buttonText items) =>
      Some (buttonText, map Ui.item_checked items)
  | _ => None
  end.

(** The "Selected value is" part of a rendered Slider's description. *)
Definition sliderShows (h : FormRenderer.Hooks) (field : FormFieldType.t)
    : option Val :=
  match renderFormField field FormRenderer.form (FormRenderer.bag h) with
  | Some item => nth_error (Ui.description item) 2
  | None => None
  end.

(** The double quote, for the one documented text that contains it. *)
Definition dquote : string := String (ascii_of_nat 34) EmptyString.

(** [fieldTypesDocs]: the key of each documented field type with its
    [example] object, in source order.  The [description] and [properties]
    texts of an entry are only displayed and are left out. *)
Definition fieldTypesDocs : list (string * Val) :=
  [ ("input",
     VObj [ ("type", VStr "input"); ("variant", VStr "email");
            ("label", VStr "Email Address"); ("name", VStr "email");
            ("placeholder", VStr "Enter your email");
            ("required", VBool true);
            ("description", VStr "We will never share your email") ]);
    ("checkbox",
     VObj [ ("type", VStr "checkbox");
            ("label", VStr "Subscribe to newsletter");
            ("name", VStr "newsletter"); ("checked", VBool false);
            ("description", VStr "Receive updates about our products") ]);
    ("date-picker",
     VObj [ ("type", VStr "date-picker"); ("label", VStr "Appointment Date");
            ("name", VStr "appointmentDate"); ("required", VBool true);
            ("min", VStr "2024-03-01"); ("max", VStr "2024-12-31");
            ("description", VStr "Select your preferred appointment date") ]);
    ("datetime-picker",
     VObj [ ("type", VStr "datetime-picker"); ("label", VStr "Meeting Time");
            ("name", VStr "meetingTime"); ("required", VBool true);
            ("description",
             VStr "Select the date and time for your meeting") ]);
    ("file-input",
     VObj [ ("type", VStr "file-input"); ("label", VStr "Upload Documents");
            ("name", VStr "documents"); ("accept", VStr ".pdf,.doc,.docx");
            ("multiple", VBool true); ("maxSize", VNum 5242880);
            ("description",
             VStr "Upload your supporting documents (PDF, DOC, DOCX)") ]);
    ("password",
     VObj [ ("type", VStr "password"); ("label", VStr "Password");
            ("name", VStr "password");
            ("placeholder", VStr "Enter your password");
            ("required", VBool true);
            ("description", VStr "Must be at least 8 characters long") ]);
    ("phone",
     VObj [ ("type", VStr "phone"); ("label", VStr "Phone Number");
            ("name", VStr "phoneNumber");
            ("placeholder", VStr "Enter your phone number");
            ("defaultCountry", VStr "US"); ("required", VBool true) ]);
    ("select",
     VObj [ ("type", VStr "select"); ("label", VStr "Country");
            ("name", VStr "country");
            ("placeholder", VStr "Select your country");
            ("options",
             VArr [ VObj [("label", VStr "United States"); ("value", VStr "US")];
                    VObj [("label", VStr "United Kingdom"); ("value", VStr "UK")];
                    VObj [("label", VStr "Canada"); ("value", VStr "CA")] ]);
            ("required", VBool true) ]);
    ("multi-select",
     VObj [ ("type", VStr "multi-select"); ("label", VStr "Skills");
            ("name", VStr "skills");
            ("placeholder", VStr "Select your skills");
            ("options",
             VArr [ VObj [("label", VStr "React"); ("value", VStr "react")];
                    VObj [("label", VStr "TypeScript");
                          ("value", VStr "typescript")];
                    VObj [("label", VStr "Node.js"); ("value", VStr "nodejs")] ]);
            ("maxItems", VNum 5); ("required", VBool true) ]);
    ("signature-input",
     VObj [ ("type", VStr "signature-input"); ("label", VStr "Signature");
            ("name", VStr "signature"); ("width", VNum 400);
            ("height", VNum 200); ("required", VBool true);
            ("description",
             VStr "Please sign using your mouse or touch screen") ]);
    ("slider",
     VObj [ ("type", VStr "slider"); ("label", VStr "Price Range");
            ("name", VStr "priceRange"); ("min", VNum 0); ("max", VNum 1000);
            ("step", VNum 10); ("defaultValue", VNum 500);
            ("description", VStr "Drag to select your price range") ]);
    ("smart-datetime",
     VObj [ ("type", VStr "smart-datetime"); ("label", VStr "Event Time");
            ("name", VStr "eventTime");
            ("placeholder",
             VStr ("Type " ++ dquote ++ "next monday at 3pm" ++ dquote
                   ++ " or select from calendar")%string);
            ("required", VBool true);
            ("description",
             VStr "Enter date/time in natural language or use the picker") ]);
    ("switch",
     VObj [ ("type", VStr "switch"); ("label", VStr "Dark Mode");
            ("name", VStr "darkMode"); ("checked", VBool false);
            ("description",
             VStr "Enable dark mode for better night viewing") ]);
    ("tags-input",
     VObj [ ("type", VStr "tags-input"); ("label", VStr "Keywords");
            ("name", VStr "keywords");
            ("placeholder", VStr "Type and press enter to add tags");
            ("maxTags", VNum 5);
            ("description",
             VStr "Add up to 5 keywords to describe your content") ]);
    ("textarea",
     VObj [ ("type", VStr "textarea"); ("label", VStr "Bio");
            ("name", VStr "bio");
            ("placeholder", VStr "Tell us about yourself");
            ("rows", VNum 4); ("maxLength", VNum 500);
            ("description", VStr "Maximum 500 characters") ]);
    ("location-input",
     VObj [ ("type", VStr "location-input"); ("label", VStr "Location");
            ("name", VStr "location"); ("defaultCountry", VStr "US");
            ("showStates", VBool true); ("required", VBool true);
            ("description",
             VStr "Select your country and state/province") ]);
    ("input-otp",
     VObj [ ("type", VStr "input-otp"); ("label", VStr "Verification Code");
            ("name", VStr "verificationCode"); ("length", VNum 6);
            ("required", VBool true);
            ("description",
             VStr "Enter the 6-digit code sent to your phone") ]);
    ("combobox",
     VObj [ ("type", VStr "combobox");
            ("label", VStr "Programming Language");
            ("name", VStr "language");
            ("placeholder", VStr "Search languages...");
            ("options",
             VArr [ VObj [("label", VStr "JavaScript"); ("value", VStr "js")];
                    VObj [("label", VStr "TypeScript"); ("value", VStr "ts")];
                    VObj [("label", VStr "Python"); ("value", VStr "py")] ]);
            ("description",
             VStr "Search and select your primary programming language") ]) ].

(** The string contains a hyphen. *)
Fixpoint hasHyphen (s : string) : bool :=
  match s with
  | EmptyString => false
  | String c s' => if Ascii.eqb c "-" then true else hasHyphen s'
  end.

(** What [FormRenderer] does with the form data it is given: the fields
    are converted, the form is set up from them, and the fields are
    rendered with the current hooks and mounted.  [setup] stands for
    [generateZodSchema], [generateDefaultValues] and [useForm], which run
    on the converted fields before anything is rendered and are not among
    the sources: it returns or throws. *)
Definition renderForm (setup : list FormFieldType.t -> result unit)
    (controller : Val -> React.ControllerField)
    (formData : Val) (h : FormRenderer.Hooks)
    : result (list (Val * React.Slot)) :=
  fields <- FormRenderer.formFields formData ;;
  _ <- setup fields ;;
  React.mountChecked controller (FormRenderer.renderedFields fields h).


(** The setter call an interaction with the control of a case has to make
    to update the control's own slot with what the user entered; [None]
    where the interaction enters nothing for the case. *)
Definition stateWrite (c : Case) (h : FormRenderer.Hooks) (i : Interaction)
    : option Cmd :=
  match c, i with
  | CaseCheckbox, Toggle | CaseSwitch, Toggle =>
      Some (SetChecked (negb (FormRenderer.checked h)))
  | CaseCombobox, SelectItem n =>
      option_map (fun language => SetValue (Ui.lang_value language))
        (nth_error languages n)
  | CaseDatePicker, PickDate d => Some (SetDate d)
  | CaseDatetimePicker, PickDate (Some d) => Some (SetDatetime d)
  | CaseFileInput, DropFiles fs => Some (SetFiles fs)
  | CaseLocationInput, PickCountry country =>
      Some (SetCountryName (countryNameOrEmpty country))
  | CaseLocationInput, PickState stateData =>
      Some (SetStateName (countryNameOrEmpty stateData))
  | CaseMultiSelect, PickValues vs => Some (SetSelectedValues vs)
  | CaseSlider, Slide (v :: _) => Some (SetValue (numToString v))
  | CaseSmartDatetimeInput, TypeDate d => Some (SetSmartDatetime d)
  | CaseTagsInput, PickValues vs => Some (SetTagsValue vs)
  | _, _ => None
  end.

(** What the slot of a case holds, as the value a form binds under the
    field's name: the language code, the list of selected values, the list
    of tags, the pair of the country's and the state's names. *)
Definition slotValue (c : Case) (h : FormRenderer.Hooks) : Val :=
  match c with
  | CaseCombobox => VStr (FormRenderer.value h)
  | CaseMultiSelect => VArr (map VStr (FormRenderer.selectedValues h))
  | CaseTagsInput => VArr (map VStr (FormRenderer.tagsValue h))
  | CaseLocationInput =>
      VArr [ VStr (FormRenderer.countryName h);
             VStr (FormRenderer.stateName h) ]
  | _ => VUndef
  end.

(** The flag the control shown for a field displays, when it is a Checkbox
    or a Switch. *)
Definition displayedChecked (c : option Ui.Control) : option bool :=
  match c with
  | Some control => checkedOf control
  | None => None
  end.

(** The cases whose control shows and flips the [checked] flag. *)
Definition isToggleCase (c : Case) : bool :=
  match c with
  | CaseCheckbox | CaseSwitch => true
  | _ => false
  end.

(** What the toggle of the control shown for a field answers. *)
Definition fire_toggle_of (h : FormRenderer.Hooks) (f : FormFieldType.t)
    : option (result Cmds) :=
  match shownControl h f with
  | Some control => fire control Toggle
  | None => None
  end.



(** The string is empty or starts with an ASCII character. *)
Definition asciiFirst (t : string) : bool :=
  match t with
  | EmptyString => true
  | String c _ => (nat_of_ascii c <? 128)%nat
  end.


(* ===================================================================== *)
(** ** Properties *)
(* ===================================================================== *)

Section SanityExamples.

Example switch_known : switchCase (VariantStr "Date Picker") = Some CaseDatePicker.
Proof. reflexivity. Qed.

Example switch_unknown : switchCase (VariantStr "Multi-select") = None.
Proof. reflexivity. Qed.

Example numToString_5 : numToString 5 = "5"%string.
Proof. reflexivity. Qed.

Example numToString_neg : numToString (-12) = "-12"%string.
Proof. reflexivity. Qed.

Example convert_text :
  option_map FormFieldType.variant
    (match FormRenderer.convertJsonFieldToFormField
             (VObj [("type", VStr "text"); ("name", VStr "a")]) with
     | Ok f => Some f | Throw _ => None end)
  = Some (VariantStr "Input").
Proof. reflexivity. Qed.

Example convert_no_type :
  isOk (FormRenderer.convertJsonFieldToFormField (VObj [("name", VStr "a")]))
  = false.
Proof. reflexivity. Qed.

End SanityExamples.

(* --------------------------------------------------------------------- *)
(** *** Slider *)

(** C9.  A Slider field is mounted with the default value 5 whatever the
    field declares, with [min], [max] and [step] falling back to 0, 100 and
    1 when absent; on interaction the chosen number, printed as a string,
    goes to the [value] slot of the state bag through [state.setValue] and
    nothing is written to the form: in the JSON-driven renderer the only
    command is [SetValue], and the form's writes are as before. *)
Theorem slider_default_5_and_value_slot_only :
  forall (field : FormFieldType.t) (form : Form.t) (state : State.t),
    switchCase (FormFieldType.variant field) = Some CaseSlider ->
    exists item handler,
      renderFormField field form state = Some item
      /\ Ui.control item
         = Ui.Slider (orElse (FormFieldType.min field) (VNum 0))
                     (orElse (FormFieldType.max field) (VNum 100))
                     (orElse (FormFieldType.step field) (VNum 1))
                     [5] handler
      /\ (FormFieldType.min field = VUndef ->
          orElse (FormFieldType.min field) (VNum 0) = VNum 0)
      /\ (FormFieldType.max field = VUndef ->
          orElse (FormFieldType.max field) (VNum 100) = VNum 100)
      /\ (FormFieldType.step field = VUndef ->
          orElse (FormFieldType.step field) (VNum 1) = VNum 1)
      /\ (forall v rest,
            handler (v :: rest) = Ok (State.setValue state (numToString v)))
      /\ (forall (h : FormRenderer.Hooks) v rest,
            form = FormRenderer.form -> state = FormRenderer.bag h ->
            handler (v :: rest) = Ok [SetValue (numToString v)]
            /\ noFormWrite [SetValue (numToString v)]
            /\ FormRenderer.value
                 (FormRenderer.apply h [SetValue (numToString v)])
               = numToString v
            /\ FormRenderer.formWrites
                 (FormRenderer.apply h [SetValue (numToString v)])
               = FormRenderer.formWrites h).
Proof.
  intros field form state Hcase.
  unfold renderFormField. rewrite Hcase. cbn zeta.
  eexists. eexists. split; [reflexivity|].
  cbn [Ui.control].
  split; [reflexivity|].
  split; [intros ->; reflexivity|].
  split; [intros ->; reflexivity|].
  split; [intros ->; reflexivity|].
  split; [reflexivity|].
  intros h v rest -> ->. cbn.
  repeat split.
  intros c [<-|[]]. reflexivity.
Qed.

Lemma slider_default_5_and_value_slot_only_witness :
  exists item handler,
    renderFormField
      (fieldWith "Slider" "price" VUndef VUndef VUndef VUndef VUndef (VNum 500))
      FormRenderer.form (FormRenderer.bag FormRenderer.initial) = Some item
    /\ Ui.control item = Ui.Slider (VNum 0) (VNum 100) (VNum 1) [5] handler
    /\ handler [40] = Ok [SetValue "40"%string]
    /\ FormRenderer.formWrites
         (FormRenderer.apply FormRenderer.initial [SetValue "40"%string]) = [].
Proof.
  destruct (slider_default_5_and_value_slot_only
              (fieldWith "Slider" "price" VUndef VUndef VUndef VUndef VUndef
                         (VNum 500))
              FormRenderer.form (FormRenderer.bag FormRenderer.initial)
              eq_refl)
    as (item & handler & Hr & Hc & _ & _ & _ & _ & Hh).
  exists item, handler.
  split; [exact Hr|].
  split; [exact Hc|].
  destruct (Hh FormRenderer.initial 40 [] eq_refl eq_refl)
    as (Hcmd & _ & _ & Hw).
  split; [exact Hcmd | exact Hw].
Defined.

(* --------------------------------------------------------------------- *)
(** *** Input OTP *)

(** C10.  The Input OTP control has [maxLength] 6 and six slots, grouped as
    three, a separator and three, whatever the field's [length]; it has no
    handler, so that no interaction reaches a state slot or the form. *)
Theorem input_otp_six_slots_unwired :
  forall (field : FormFieldType.t) (form : Form.t) (state : State.t),
    switchCase (FormFieldType.variant field) = Some CaseInputOTP ->
    exists item,
      renderFormField field form state = Some item
      /\ Ui.control item
         = Ui.InputOTP 6 [ Ui.InputOTPGroup [0; 1; 2]; Ui.InputOTPSeparator;
                           Ui.InputOTPGroup [3; 4; 5] ]
      /\ List.length (otpSlots (Ui.control item)) = 6%nat
      /\ (forall i, fire (Ui.control item) i = None).
Proof.
  intros field form state Hcase.
  unfold renderFormField. rewrite Hcase. cbn zeta.
  eexists. split; [reflexivity|].
  cbn [Ui.control].
  split; [reflexivity|].
  split; [reflexivity|].
  intros i. destruct i; reflexivity.
Qed.

Lemma input_otp_six_slots_unwired_witness :
  exists item,
    renderFormField
      (fieldWith "Input OTP" "code" VUndef VUndef VUndef VUndef (VNum 4) VUndef)
      FormRenderer.form (FormRenderer.bag FormRenderer.initial) = Some item
    /\ List.length (otpSlots (Ui.control item)) = 6%nat.
Proof.
  destruct (input_otp_six_slots_unwired
              (fieldWith "Input OTP" "code" VUndef VUndef VUndef VUndef
                         (VNum 4) VUndef)
              FormRenderer.form (FormRenderer.bag FormRenderer.initial)
              eq_refl)
    as (item & Hr & _ & Hl & _).
  exists item. split; [exact Hr | exact Hl].
Defined.

(* --------------------------------------------------------------------- *)
(** *** Choice controls *)

(** C5, counterexample.  A Select whose [options] is the empty array is
    rendered with three choices, none of them from the field. *)
Lemma select_without_options_offers_choices :
  let field := fieldWith "Select" "country" (VArr []) VUndef VUndef VUndef
                         VUndef VUndef in
  optionValues (FormFieldType.options field) = []
  /\ option_map (fun item => choices (Ui.control item))
       (renderFormField field FormRenderer.form
          (FormRenderer.bag FormRenderer.initial))
     = Some ["m@example.com"; "m@google.com"; "m@support.com"]%string
  /\ ~ (forall field form state item,
          switchCase (FormFieldType.variant field) = Some CaseSelect ->
          optionValues (FormFieldType.options field) = [] ->
          renderFormField field form state = Some item ->
          choices (Ui.control item) = []).
Proof.
  cbv zeta. split; [reflexivity|]. split; [reflexivity|].
  intros H.
  pose (field := fieldWith "Select" "country" (VArr []) VUndef VUndef VUndef
                           VUndef VUndef).
  pose (st := FormRenderer.bag FormRenderer.initial).
  destruct (renderFormField field FormRenderer.form st) as [item|] eqn:Hr;
    [|discriminate Hr].
  specialize (H field FormRenderer.form st item eq_refl eq_refl Hr).
  apply (f_equal (fun o => option_map (fun i => choices (Ui.control i)) o)) in Hr.
  cbn [option_map] in Hr. rewrite H in Hr. discriminate Hr.
Qed.

(** C5, amended.  A Select, Multi Select or Combobox field is rendered
    without failing whatever its [options] are, absent and empty included,
    and the choices offered are a fixed built-in list that does not depend
    on the field: three e-mail addresses for Select, React, Vue and Svelte
    for Multi Select, the nine [languages] for Combobox. *)
Theorem choice_controls_offer_builtin_choices :
  forall (field : FormFieldType.t) (form : Form.t) (state : State.t)
         (c : Case),
    switchCase (FormFieldType.variant field) = Some c ->
    isChoiceCase c = true ->
    exists item,
      renderFormField field form state = Some item
      /\ choices (Ui.control item) = builtinChoices c
      /\ builtinChoices c <> [].
Proof.
  intros field form state c Hcase Hchoice.
  unfold renderFormField. rewrite Hcase.
  destruct c; try discriminate Hchoice; cbn zeta;
    (eexists; split; [reflexivity|]; split; [reflexivity|discriminate]).
Qed.

Lemma choice_controls_offer_builtin_choices_witness :
  exists item,
    renderFormField
      (fieldWith "Combobox" "language"
         (VArr [VObj [("label", VStr "Python"); ("value", VStr "py")]])
         VUndef VUndef VUndef VUndef VUndef)
      FormRenderer.form (FormRenderer.bag FormRenderer.initial) = Some item
    /\ choices (Ui.control item)
       = ["en"; "fr"; "de"; "es"; "pt"; "ru"; "ja"; "ko"; "zh"]%string.
Proof.
  destruct (choice_controls_offer_builtin_choices
              (fieldWith "Combobox" "language"
                 (VArr [VObj [("label", VStr "Python"); ("value", VStr "py")]])
                 VUndef VUndef VUndef VUndef VUndef)
              FormRenderer.form (FormRenderer.bag FormRenderer.initial)
              CaseCombobox eq_refl eq_refl)
    as (item & Hr & Hc & _).
  exists item. split; [exact Hr | exact Hc].
Defined.

(* --------------------------------------------------------------------- *)
(** *** Lists with indices *)

Lemma mapi_from_app {A B} (f : A -> Z -> B) (l1 l2 : list A) (i : Z) :
  mapi_from i f (l1 ++ l2)
  = mapi_from i f l1 ++ mapi_from (i + Z.of_nat (List.length l1)) f l2.
Proof.
  revert i. induction l1 as [|a l1 IH]; intros i.
  - cbn. now rewrite Z.add_0_r.
  - cbn [app mapi_from List.length]. rewrite IH. do 3 f_equal. lia.
Qed.

Lemma mapi_from_length {A B} (f : A -> Z -> B) (l : list A) (i : Z) :
  List.length (mapi_from i f l) = List.length l.
Proof.
  revert i. induction l as [|a l IH]; intros i; cbn; [reflexivity|].
  now rewrite IH.
Qed.

Lemma mapi_nth_middle {A B} (f : A -> Z -> B) (l1 l2 : list A) (x : A) :
  nth_error (mapi f (l1 ++ x :: l2)) (List.length l1)
  = Some (f x (Z.of_nat (List.length l1))).
Proof.
  unfold mapi. rewrite mapi_from_app.
  rewrite nth_error_app2 by (rewrite mapi_from_length; lia).
  rewrite mapi_from_length, Nat.sub_diag. reflexivity.
Qed.

(* --------------------------------------------------------------------- *)
(** *** Column spans of a row *)

Lemma colSpan_class (n : nat) :
  ("col-span-" ++ numToString (FormPreview.colSpan (Z.of_nat n)))%string
  = spanClass n.
Proof.
  unfold FormPreview.colSpan, spanClass.
  destruct (Nat.eqb_spec n 2) as [->|Hn]; [reflexivity|].
  destruct (Z.eqb_spec (Z.of_nat n) 2) as [H|H]; [lia|reflexivity].
Qed.

(** C4, counterexample.  Each member of a group of three spans 4 of the
    12 columns, which is a third of the row and not a quarter. *)
Lemma group_of_three_spans_a_third :
  FormPreview.colSpan 3 = 4
  /\ 4 * FormPreview.colSpan 3 <> FormPreview.gridCols
  /\ classNames
       (FormPreview.mountNode echoController
          (FormPreview.Row 0 "grid grid-cols-12 gap-4"
             (map (fun field =>
                     FormPreview.formFieldOf (FormFieldType.name field)
                       (Some ("col-span-"
                              ++ numToString (FormPreview.colSpan 3))%string)
                       field FormRenderer.form)
                  [fieldOf "Input" "a"; fieldOf "Input" "b";
                   fieldOf "Input" "c"])))
     = Some [Some "col-span-4"; Some "col-span-4"; Some "col-span-4"]%string
  /\ ~ (forall n, n <> 2 ->
          4 * FormPreview.colSpan n = FormPreview.gridCols).
Proof.
  split; [reflexivity|].
  split; [discriminate|].
  split; [reflexivity|].
  intros H. specialize (H 3 ltac:(discriminate)). discriminate H.
Qed.

(** C4, amended.  A group is rendered as one row on a 12-column grid; each
    member of a group of exactly 2 has class [col-span-6], half of the
    row, and each member of a group of any other size has class
    [col-span-4], a third of the row. *)
Theorem group_members_span_half_or_third :
  forall (before after : list FormPreview.FormFieldOrGroup)
         (fs : list FormFieldType.t) (form : Form.t),
    nth_error
      (FormPreview.renderFormFields (before ++ FormPreview.Group fs :: after)
         form)
      (List.length before)
    = Some (FormPreview.Row (Z.of_nat (List.length before))
              "grid grid-cols-12 gap-4"
              (map (fun field =>
                      FormPreview.formFieldOf (FormFieldType.name field)
                        (Some (spanClass (List.length fs))) field form)
                   fs))
    /\ (List.length fs = 2%nat ->
        spanClass (List.length fs) = "col-span-6"%string
        /\ FormPreview.colSpan (Z.of_nat (List.length fs)) = 6
        /\ 2 * 6 = FormPreview.gridCols)
    /\ (List.length fs <> 2%nat ->
        spanClass (List.length fs) = "col-span-4"%string
        /\ FormPreview.colSpan (Z.of_nat (List.length fs)) = 4
        /\ 3 * 4 = FormPreview.gridCols).
Proof.
  intros before after fs form. split; [|split].
  - unfold FormPreview.renderFormFields. rewrite mapi_nth_middle.
    cbv zeta. rewrite colSpan_class. reflexivity.
  - intros H. rewrite H. repeat split.
  - intros H. unfold spanClass, FormPreview.colSpan.
    destruct (Nat.eqb_spec (List.length fs) 2) as [E|_]; [contradiction|].
    destruct (Z.eqb_spec (Z.of_nat (List.length fs)) 2) as [E|_]; [lia|].
    repeat split.
Qed.

Lemma group_members_span_half_or_third_witness :
  nth_error
    (FormPreview.renderFormFields
       ([FormPreview.Field (fieldOf "Textarea" "bio")]
        ++ FormPreview.Group [fieldOf "Input" "email";
                              fieldOf "Checkbox" "subscribe"] :: [])
       FormRenderer.form)
    1
  = Some (FormPreview.Row 1 "grid grid-cols-12 gap-4"
            (map (fun field =>
                    FormPreview.formFieldOf (FormFieldType.name field)
                      (Some "col-span-6"%string) field FormRenderer.form)
                 [fieldOf "Input" "email"; fieldOf "Checkbox" "subscribe"]))
  /\ FormPreview.colSpan 2 = 6
  /\ FormPreview.colSpan 3 = 4.
Proof.
  destruct (group_members_span_half_or_third
              [FormPreview.Field (fieldOf "Textarea" "bio")] []
              [fieldOf "Input" "email"; fieldOf "Checkbox" "subscribe"]
              FormRenderer.form) as (Hrow & H2 & _).
  destruct (group_members_span_half_or_third
              [] [] [fieldOf "Input" "a"; fieldOf "Input" "b";
                     fieldOf "Input" "c"]
              FormRenderer.form) as (_ & _ & H3).
  split; [exact Hrow|].
  split; [exact (proj1 (proj2 (H2 eq_refl)))|].
  refine (proj1 (proj2 (H3 _))). cbn. lia.
Defined.

(* --------------------------------------------------------------------- *)
(** *** Unknown variants *)

Lemma renderFormField_None_iff (field : FormFieldType.t) (form : Form.t)
    (state : State.t) :
  renderFormField field form state = None <-> unknownVariant field = true.
Proof.
  unfold renderFormField, unknownVariant.
  destruct (switchCase (FormFieldType.variant field)) as [c|].
  - destruct c; cbn zeta; split; discriminate.
  - split; reflexivity.
Qed.

(** The dispatcher answers [null] exactly for the variants it has no case
    for, and never throws. *)
Lemma renderFormField_unknown_is_null (field : FormFieldType.t)
    (form : Form.t) (state : State.t) :
  switchCase (FormFieldType.variant field) = None ->
  renderFormField field form state = None.
Proof.
  intros H. apply renderFormField_None_iff. unfold unknownVariant.
  now rewrite H.
Qed.

Lemma mount_renderedFields_from (controller : Val -> React.ControllerField)
    (h : FormRenderer.Hooks) (fields : list FormFieldType.t) (i : Z) :
  React.mount controller
    (mapi_from i
       (fun field index =>
          let renderedField :=
            renderFormField field FormRenderer.form (FormRenderer.bag h) in
          match renderedField with
          | None => None
          | Some _ =>
              Some {| React.key := orElse (FormFieldType.name field) (VNum index);
                      React.name := FormFieldType.name field;
                      React.render := fun formField =>
                        cloned <- React.cloneElement renderedField formField ;;
                        Ok {| React.className := None;
                              React.content := cloned |} |}
          end)
       fields)
  = Ok (shownFields controller h fields).
Proof.
  revert i. induction fields as [|f fields IH]; intros i.
  - reflexivity.
  - cbn [mapi_from shownFields flat_map]. cbv zeta.
    destruct (renderFormField f FormRenderer.form (FormRenderer.bag h))
      as [item|] eqn:Hr.
    + cbn [React.mount React.render React.name React.cloneElement Js.bind].
      rewrite IH. reflexivity.
    + cbn [React.mount app]. apply IH.
Qed.

(** The JSON-driven renderer never throws while mounting its fields, and
    shows exactly the fields that have a control. *)
Lemma FormRenderer_mount (controller : Val -> React.ControllerField)
    (h : FormRenderer.Hooks) (fields : list FormFieldType.t) :
  React.mount controller (FormRenderer.renderedFields fields h)
  = Ok (shownFields controller h fields).
Proof. apply mount_renderedFields_from. Qed.

(** In the JSON-driven renderer a field of unknown variant is left out: the
    form is the one of the list without it. *)
Lemma FormRenderer_omits_unknown (controller : Val -> React.ControllerField)
    (h : FormRenderer.Hooks) (before after : list FormFieldType.t)
    (unknown : FormFieldType.t) :
  switchCase (FormFieldType.variant unknown) = None ->
  React.mount controller
    (FormRenderer.renderedFields (before ++ unknown :: after) h)
  = React.mount controller (FormRenderer.renderedFields (before ++ after) h).
Proof.
  intros H. rewrite !FormRenderer_mount. f_equal.
  unfold shownFields. rewrite !flat_map_app. f_equal.
  cbn [flat_map]. now rewrite (renderFormField_unknown_is_null _ _ _ H).
Qed.

Lemma mount_group (controller : Val -> React.ControllerField)
    (className : option string) (form : Form.t)
    (fs : list FormFieldType.t) :
  React.mount controller
    (map Some
       (map (fun field =>
               FormPreview.formFieldOf (FormFieldType.name field) className
                 field form) fs))
  = (if existsb unknownVariant fs then Throw cloneNullError
     else React.mount controller
            (map Some
               (map (fun field =>
                       FormPreview.formFieldOf (FormFieldType.name field)
                         className field form) fs)))
  /\ (existsb unknownVariant fs = false ->
      isOk (React.mount controller
              (map Some
                 (map (fun field =>
                         FormPreview.formFieldOf (FormFieldType.name field)
                           className field form) fs))) = true).
Proof.
  induction fs as [|f fs [IH1 IH2]].
  - split; reflexivity.
  - cbn [map existsb React.mount FormPreview.formFieldOf React.render
         React.name].
    destruct (unknownVariant f) eqn:Hu.
    + apply (renderFormField_None_iff f form FormPreview.previewState) in Hu.
      rewrite Hu. cbn. split; [reflexivity | discriminate].
    + destruct (renderFormField f form FormPreview.previewState)
        as [item|] eqn:Hr.
      2:{ apply renderFormField_None_iff in Hr. congruence. }
      cbn [orb React.cloneElement Js.bind].
      destruct (existsb unknownVariant fs) eqn:He.
      * rewrite IH1. split; [reflexivity | discriminate].
      * split; [reflexivity|]. intros _. specialize (IH2 eq_refl).
        destruct (React.mount controller _); [reflexivity | discriminate IH2].
Qed.

Lemma mountNodes_from (controller : Val -> React.ControllerField)
    (form : Form.t) (fields : list FormPreview.FormFieldOrGroup) (i : Z) :
  let nodes :=
    mapi_from i
      (fun fieldOrGroup index =>
         match fieldOrGroup with
         | FormPreview.Group fs =>
             let colSpan := FormPreview.colSpan (Z.of_nat (List.length fs)) in
             FormPreview.Row index "grid grid-cols-12 gap-4"
               (map (fun field =>
                       FormPreview.formFieldOf (FormFieldType.name field)
                         (Some ("col-span-" ++ numToString colSpan)%string)
                         field form)
                    fs)
         | FormPreview.Field f =>
             FormPreview.Single
               (FormPreview.formFieldOf (VNum index) None f form)
         end)
      fields in
  if hasUnknown fields
  then FormPreview.mountNodes controller nodes = Throw cloneNullError
  else isOk (FormPreview.mountNodes controller nodes) = true.
Proof.
  cbv zeta. revert i.
  induction fields as [|g fields IH]; intros i; [reflexivity|].
  cbn [mapi_from hasUnknown existsb FormPreview.mountNodes].
  specialize (IH (i + 1)). fold (hasUnknown fields).
  destruct g as [f|fs].
  - cbn [FormPreview.mountNode React.mount FormPreview.formFieldOf
         React.render React.name].
    destruct (unknownVariant f) eqn:Hu.
    + apply (renderFormField_None_iff f form FormPreview.previewState) in Hu.
      rewrite Hu. reflexivity.
    + destruct (renderFormField f form FormPreview.previewState)
        as [item|] eqn:Hr.
      2:{ apply renderFormField_None_iff in Hr. congruence. }
      cbn [orb React.cloneElement Js.bind].
      destruct (hasUnknown fields).
      * unfold hasUnknown in IH. cbv zeta in IH. rewrite IH. reflexivity.
      * destruct (FormPreview.mountNodes controller _);
          [reflexivity | discriminate IH].
  - cbn [FormPreview.mountNode]. cbv zeta.
    destruct (mount_group controller
                (Some ("col-span-"
                       ++ numToString
                            (FormPreview.colSpan (Z.of_nat (List.length fs))))%string)
                form fs) as [H1 H2].
    destruct (existsb unknownVariant fs) eqn:He.
    + rewrite H1. reflexivity.
    + specialize (H2 eq_refl). cbn [orb].
      destruct (React.mount controller _) as [slots|]; [|discriminate H2].
      cbn [Js.bind].
      destruct (hasUnknown fields).
      * rewrite IH. reflexivity.
      * destruct (FormPreview.mountNodes controller _);
          [reflexivity | discriminate IH].
Qed.

(** C1.  The dispatcher returns [null] for a variant it has no case for,
    and the JSON-driven renderer then leaves the field out; but
    [renderFormFields] hands that [null] to [React.cloneElement]: mounting
    the preview of a field-list that holds a field of unknown variant,
    alone or inside a group, throws instead of omitting the field. *)
Theorem renderFormFields_throws_on_unknown_variant :
  forall (controller : Val -> React.ControllerField) (form : Form.t)
         (fields : list FormPreview.FormFieldOrGroup),
    hasUnknown fields = true ->
    FormPreview.mountNodes controller
      (FormPreview.renderFormFields fields form)
    = Throw cloneNullError.
Proof.
  intros controller form fields H.
  pose proof (mountNodes_from controller form fields 0) as Hm.
  cbv zeta in Hm. rewrite H in Hm. exact Hm.
Qed.

Lemma renderFormFields_throws_on_unknown_variant_witness :
  FormPreview.mountNodes echoController
    (FormPreview.renderFormFields
       [ FormPreview.Field (fieldOf "Input" "email");
         FormPreview.Group [fieldOf "Checkbox" "subscribe";
                            fieldOf "Rating" "stars"] ]
       FormRenderer.form)
  = Throw cloneNullError.
Proof.
  apply (renderFormFields_throws_on_unknown_variant echoController
           FormRenderer.form
           [ FormPreview.Field (fieldOf "Input" "email");
             FormPreview.Group [fieldOf "Checkbox" "subscribe";
                                fieldOf "Rating" "stars"] ]).
  reflexivity.
Defined.

(** Without a field of unknown variant the preview mounts. *)
Lemma renderFormFields_mounts_known (controller : Val -> React.ControllerField)
    (form : Form.t) (fields : list FormPreview.FormFieldOrGroup) :
  hasUnknown fields = false ->
  isOk (FormPreview.mountNodes controller
          (FormPreview.renderFormFields fields form)) = true.
Proof.
  intros H.
  pose proof (mountNodes_from controller form fields 0) as Hm.
  cbv zeta in Hm. rewrite H in Hm. exact Hm.
Qed.

Example FormRenderer_unknown_example :
  option_map (map fst)
    (match React.mount echoController
             (FormRenderer.renderedFields
                [fieldOf "Input" "email"; fieldOf "Rating" "stars";
                 fieldOf "Checkbox" "subscribe"] FormRenderer.initial) with
     | Ok slots => Some slots
     | Throw _ => None
     end)
  = Some [VStr "email"; VStr "subscribe"].
Proof. reflexivity. Qed.

Example renderFormFields_single_unknown_example :
  FormPreview.mountNodes echoController
    (FormPreview.renderFormFields
       [FormPreview.Field (fieldOf "Rating" "stars")] FormRenderer.form)
  = Throw cloneNullError.
Proof. reflexivity. Qed.

(* --------------------------------------------------------------------- *)
(** *** From a JSON field to a dispatcher variant *)

Lemma getProp_total (v x : Val) (k k' : string) :
  getProp v k = Ok x -> exists y, getProp v k' = Ok y.
Proof.
  destruct v; cbn; intros H; try discriminate H; eexists; reflexivity.
Qed.

Lemma convert_string_type (jsonField : Val) (t : string) :
  getProp jsonField "type" = Ok (VStr t) ->
  exists f,
    FormRenderer.convertJsonFieldToFormField jsonField = Ok f
    /\ FormFieldType.variant f
       = match FormRenderer.typeToVariant_get t with
         | Some v => v
         | None => VariantStr (capitalize t)
         end.
Proof.
  intros Ht. unfold FormRenderer.convertJsonFieldToFormField.
  rewrite Ht. cbn [Js.bind toString].
  destruct (getProp_total _ _ _ "label" Ht) as [x1 ->].
  destruct (getProp_total _ _ _ "name" Ht) as [x2 ->].
  destruct (getProp_total _ _ _ "placeholder" Ht) as [x3 ->].
  destruct (getProp_total _ _ _ "required" Ht) as [x4 ->].
  destruct (getProp_total _ _ _ "description" Ht) as [x5 ->].
  destruct (getProp_total _ _ _ "options" Ht) as [x6 ->].
  destruct (getProp_total _ _ _ "disabled" Ht) as [x7 ->].
  destruct (getProp_total _ _ _ "value" Ht) as [x8 ->].
  destruct (getProp_total _ _ _ "checked" Ht) as [x9 ->].
  destruct (FormRenderer.typeToVariant_get t) as [v|];
    cbn [Js.bind FormRenderer.capitalized];
    eexists; (split; [reflexivity|]); reflexivity.
Qed.

(** C8, counterexample.  The table has ten entries, not nine, and a type
    that names a property inherited from [Object.prototype], such as
    ['constructor'], is found in the table object and is not capitalized. *)
Lemma typeToVariant_ten_entries_and_inherited :
  List.length FormRenderer.typeToVariant = 10%nat
  /\ List.length FormRenderer.typeToVariant <> 9%nat
  /\ assoc "constructor" FormRenderer.typeToVariant = None
  /\ variantOf (FormRenderer.convertJsonFieldToFormField
                  (VObj [("type", VStr "constructor"); ("name", VStr "c")]))
     = Some (VariantInherited "constructor")
  /\ ~ (forall jsonField t,
          getProp jsonField "type" = Ok (VStr t) ->
          assoc t FormRenderer.typeToVariant = None ->
          variantOf (FormRenderer.convertJsonFieldToFormField jsonField)
          = Some (VariantStr (capitalize t))).
Proof.
  split; [reflexivity|]. split; [discriminate|]. split; [reflexivity|].
  split; [reflexivity|].
  intros H.
  specialize (H (VObj [("type", VStr "constructor"); ("name", VStr "c")])
                "constructor"%string eq_refl eq_refl).
  discriminate H.
Qed.

(** C8, amended.  [convertJsonFieldToFormField] maps a JSON field's [type]
    string through a fixed ten-entry table onto nine variants (['text'] and
    ['email'] both give ['Input'], ['file'] gives ['File Input'], ['date']
    gives ['Date Picker'], ['datetime'] gives ['Datetime Picker']); a type
    string that is neither in the table nor the name of a property inherited
    from [Object.prototype] becomes itself with the first letter in upper
    case.  For each hyphenated documented type the variant so produced has
    no case in [renderFormField], and the JSON-driven renderer leaves the
    field out. *)
Theorem convert_type_table_and_capitalization :
  List.length FormRenderer.typeToVariant = 10%nat
  /\ List.length (nodup string_dec (map snd FormRenderer.typeToVariant)) = 9%nat
  /\ map (fun t => assoc t FormRenderer.typeToVariant)
       ["text"; "email"; "file"; "date"; "datetime"]%string
     = [Some "Input"; Some "Input"; Some "File Input"; Some "Date Picker";
        Some "Datetime Picker"]%string
  /\ (forall jsonField t,
        getProp jsonField "type" = Ok (VStr t) ->
        assoc t FormRenderer.typeToVariant = None ->
        strIn t objectPrototypeKeys = false ->
        variantOf (FormRenderer.convertJsonFieldToFormField jsonField)
        = Some (VariantStr (capitalize t)))
  /\ (forall jsonField t,
        getProp jsonField "type" = Ok (VStr t) ->
        In t hyphenatedTypes ->
        exists f,
          FormRenderer.convertJsonFieldToFormField jsonField = Ok f
          /\ FormFieldType.variant f = VariantStr (capitalize t)
          /\ switchCase (FormFieldType.variant f) = None
          /\ (forall form state, renderFormField f form state = None)
          /\ (forall controller h before after,
                React.mount controller
                  (FormRenderer.renderedFields (before ++ f :: after) h)
                = React.mount controller
                    (FormRenderer.renderedFields (before ++ after) h))).
Proof.
  split; [reflexivity|]. split; [reflexivity|]. split; [reflexivity|].
  split.
  - intros jsonField t Ht Hown Hinh.
    destruct (convert_string_type jsonField t Ht) as (f & -> & Hv).
    cbn [variantOf]. rewrite Hv.
    unfold FormRenderer.typeToVariant_get. now rewrite Hown, Hinh.
  - intros jsonField t Ht Hin.
    destruct (convert_string_type jsonField t Ht) as (f & Hf & Hv).
    assert (Hcase : FormFieldType.variant f = VariantStr (capitalize t)
                    /\ switchCase (FormFieldType.variant f) = None).
    { rewrite Hv. cbn in Hin.
      repeat (destruct Hin as [<-|Hin]; [split; reflexivity|]).
      contradiction. }
    destruct Hcase as [Hvar Hnone].
    exists f. split; [exact Hf|]. split; [exact Hvar|].
    split; [exact Hnone|]. split.
    + intros form state. now apply renderFormField_unknown_is_null.
    + intros controller h before after.
      now apply FormRenderer_omits_unknown.
Qed.

Lemma convert_type_table_and_capitalization_witness :
  variantOf (FormRenderer.convertJsonFieldToFormField
               (VObj [("type", VStr "slider"); ("name", VStr "price")]))
  = Some (VariantStr "Slider")
  /\ exists f,
       FormRenderer.convertJsonFieldToFormField
         (VObj [("type", VStr "multi-select"); ("name", VStr "skills")])
       = Ok f
       /\ FormFieldType.variant f = VariantStr "Multi-select"
       /\ switchCase (FormFieldType.variant f) = None.
Proof.
  destruct convert_type_table_and_capitalization
    as (_ & _ & _ & Hcap & Hhyph).
  split.
  - apply (Hcap (VObj [("type", VStr "slider"); ("name", VStr "price")])
                "slider"%string); reflexivity.
  - destruct (Hhyph (VObj [("type", VStr "multi-select");
                           ("name", VStr "skills")])
                    "multi-select"%string eq_refl)
      as (f & Hf & Hv & Hn & _).
    + simpl. left. reflexivity.
    + exists f. split; [exact Hf|]. split; [exact Hv | exact Hn].
Defined.

(* --------------------------------------------------------------------- *)
(** *** What the handlers write *)

Lemma case_classes_cover (c : Case) :
  (writesBoth c || writesStateOnly c || callsFieldOnChange c || unwired c
   = true)%bool.
Proof. destruct c; reflexivity. Qed.

(** C2, counterexample.  Toggling a Checkbox calls [state.setChecked]
    and nothing else, so the form value under the field's name is not
    written. *)
Lemma checkbox_toggle_writes_no_form_value :
  let field := fieldOf "Checkbox" "subscribe" in
  option_map (fun item => fire (Ui.control item) Toggle)
    (renderFormField field FormRenderer.form
       (FormRenderer.bag FormRenderer.initial))
  = Some (Some (Ok [SetChecked true]))
  /\ ~ writesForm (FormFieldType.name field) [SetChecked true]
  /\ ~ (forall field h item i cs,
          renderFormField field FormRenderer.form (FormRenderer.bag h)
          = Some item ->
          fire (Ui.control item) i = Some (Ok cs) ->
          (exists c, In c cs /\ isStateWrite c = true)
          /\ writesForm (FormFieldType.name field) cs).
Proof.
  cbv zeta. split; [reflexivity|].
  assert (Hno : ~ writesForm (FormFieldType.name (fieldOf "Checkbox" "subscribe"))
                    [SetChecked true]).
  { intros (v & o & [H|[]]). discriminate H. }
  split; [exact Hno|].
  intros H.
  destruct (renderFormField (fieldOf "Checkbox" "subscribe") FormRenderer.form
              (FormRenderer.bag FormRenderer.initial)) as [item|] eqn:Hr;
    [|discriminate Hr].
  specialize (H _ _ item Toggle [SetChecked true] Hr).
  apply Hno, H.
  injection Hr as <-. reflexivity.
Qed.

Lemma both_writers_write_the_slot_value (field : FormFieldType.t)
    (h : FormRenderer.Hooks) (c : Case) (item : Ui.FormItem)
    (i : Interaction) (cs : Cmds) :
  switchCase (FormFieldType.variant field) = Some c ->
  renderFormField field FormRenderer.form (FormRenderer.bag h) = Some item ->
  writesBoth c = true ->
  fire (Ui.control item) i = Some (Ok cs) ->
  exists x options,
    stateWrite c h i = Some x
    /\ cs = [x; FormSetValue (FormFieldType.name field)
                  (slotValue c (FormRenderer.apply h [x])) options]
    /\ ownSlot c x = true.
Proof.
  intros Hcase Hr Hb Hfire.
  unfold renderFormField in Hr. rewrite Hcase in Hr.
  destruct c; try discriminate Hb; cbn zeta in Hr; injection Hr as <-;
    cbn [Ui.control] in Hfire; destruct i; cbn [fire] in Hfire;
    try discriminate Hfire.
  - (* Combobox *)
    do 9 (destruct i as [|i];
          [injection Hfire as <-; cbn; do 2 eexists;
           split; [reflexivity|]; split; reflexivity|]).
    destruct i; discriminate Hfire.
  - (* Location Input, country *)
    injection Hfire as <-. cbn. do 2 eexists.
    split; [reflexivity|]. split; reflexivity.
  - (* Location Input, state *)
    injection Hfire as <-. cbn. do 2 eexists.
    split; [reflexivity|]. split; reflexivity.
  - (* Multi Select *)
    injection Hfire as <-. cbn. do 2 eexists.
    split; [reflexivity|]. split; reflexivity.
  - (* Tags Input *)
    injection Hfire as <-. cbn. do 2 eexists.
    split; [reflexivity|]. split; reflexivity.
Qed.

Lemma state_writers_write_their_slot (field : FormFieldType.t)
    (h : FormRenderer.Hooks) (c : Case) (item : Ui.FormItem)
    (i : Interaction) (cs : Cmds) :
  switchCase (FormFieldType.variant field) = Some c ->
  renderFormField field FormRenderer.form (FormRenderer.bag h) = Some item ->
  writesStateOnly c = true ->
  fire (Ui.control item) i = Some (Ok cs) ->
  cs = match stateWrite c h i with
       | Some x => [x]
       | None => []
       end
  /\ (forall x, In x cs -> ownSlot c x = true)
  /\ noFormWrite cs /\ (List.length cs <= 1)%nat.
Proof.
  intros Hcase Hr Hb Hfire.
  unfold renderFormField in Hr. rewrite Hcase in Hr.
  destruct c; try discriminate Hb; cbn zeta in Hr; injection Hr as <-;
    cbn [Ui.control] in Hfire; destruct i; cbn [fire] in Hfire;
    try discriminate Hfire.
  - (* Checkbox *)
    injection Hfire as <-. split; [reflexivity|].
    repeat split; [| |cbn; lia]; intros x [<-|[]]; reflexivity.
  - (* Date Picker *)
    injection Hfire as <-. split; [reflexivity|].
    repeat split; [| |cbn; lia]; intros x [<-|[]]; reflexivity.
  - (* Datetime Picker *)
    injection Hfire as <-. destruct d as [d|]; cbn.
    + split; [reflexivity|].
      repeat split; [| |lia]; intros x [<-|[]]; reflexivity.
    + split; [reflexivity|]. repeat split; [| |lia]; intros x [].
  - (* File Input *)
    injection Hfire as <-. split; [reflexivity|].
    repeat split; [| |cbn; lia]; intros x [<-|[]]; reflexivity.
  - (* Slider *)
    destruct value as [|v0 rest]; [discriminate Hfire|].
    injection Hfire as <-. split; [reflexivity|].
    repeat split; [| |cbn; lia]; intros x [<-|[]]; reflexivity.
  - (* Smart Datetime Input *)
    injection Hfire as <-. split; [reflexivity|].
    repeat split; [| |cbn; lia]; intros x [<-|[]]; reflexivity.
  - (* Switch *)
    injection Hfire as <-. split; [reflexivity|].
    repeat split; [| |cbn; lia]; intros x [<-|[]]; reflexivity.
Qed.

Lemma entering_a_value_has_a_handler (field : FormFieldType.t)
    (h : FormRenderer.Hooks) (c : Case) (item : Ui.FormItem)
    (i : Interaction) (x : Cmd) :
  switchCase (FormFieldType.variant field) = Some c ->
  renderFormField field FormRenderer.form (FormRenderer.bag h) = Some item ->
  stateWrite c h i = Some x ->
  exists cs, fire (Ui.control item) i = Some (Ok cs).
Proof.
  intros Hcase Hr Hx.
  unfold renderFormField in Hr. rewrite Hcase in Hr.
  destruct c; cbn zeta in Hr; injection Hr as <-; cbn [Ui.control];
    destruct i; cbn [stateWrite] in Hx; try discriminate Hx; cbn [fire];
    try (eexists; reflexivity).
  - (* Combobox *)
    do 9 (destruct i as [|i]; [eexists; reflexivity|]).
    destruct i; discriminate Hx.
  - (* Slider *)
    destruct value as [|v0 rest]; [discriminate Hx|].
    eexists. reflexivity.
Qed.

Lemma other_controls_reach_no_slot (field : FormFieldType.t)
    (h : FormRenderer.Hooks) (c : Case) (item : Ui.FormItem) :
  switchCase (FormFieldType.variant field) = Some c ->
  renderFormField field FormRenderer.form (FormRenderer.bag h) = Some item ->
  (callsFieldOnChange c = true ->
   forall i cs,
     fire (Ui.control item) i = Some (Ok cs) ->
     cs = [] \/ exists v, cs = FormFieldType.onChange field v)
  /\ (unwired c = true -> forall i, fire (Ui.control item) i = None).
Proof.
  intros Hcase Hr.
  unfold renderFormField in Hr. rewrite Hcase in Hr.
  destruct c; cbn zeta in Hr; injection Hr as <-; cbn [Ui.control];
    (split; intros Hclass; try discriminate Hclass);
    try (intros i; destruct i; reflexivity);
    intros i cs Hfire; destruct i; cbn [fire] in Hfire;
    try discriminate Hfire; injection Hfire as <-.
  - (* Select *)
    right. eexists. reflexivity.
  - (* Signature Input *)
    destruct signature as [s|]; [|now left].
    cbn. destruct (s =? "")%string; cbn;
      [now left | right; eexists; reflexivity].
Qed.

(** C2, amended.  In the JSON-driven renderer the controls of Combobox,
    Location Input, Multi Select and Tags Input perform both writes on
    every interaction: one call of their own slot's setter with what the
    user entered, then [form.setValue] under the field's name with the
    semantically-equivalent value, which is what the slot holds after the
    write (the language code, the list, the pair of country and state
    names).  The controls of Checkbox, Switch, Date Picker, Datetime
    Picker, File Input, Slider and Smart Datetime Input make exactly the
    call of their own slot's setter, where the interaction enters a value,
    and never write the form value.  Select and Signature Input call only
    the field's own [onChange].  Input, Input OTP, Textarea, Password and
    Phone have no handler at all.  Every control of the first two classes
    has a handler for each interaction that enters a value. *)
Theorem handlers_write_by_case_class :
  forall (field : FormFieldType.t) (h : FormRenderer.Hooks) (c : Case),
    switchCase (FormFieldType.variant field) = Some c ->
    exists item,
      renderFormField field FormRenderer.form (FormRenderer.bag h) = Some item
      /\ (writesBoth c = true ->
          forall i cs,
            fire (Ui.control item) i = Some (Ok cs) ->
            exists x options,
              stateWrite c h i = Some x
              /\ cs = [x; FormSetValue (FormFieldType.name field)
                            (slotValue c (FormRenderer.apply h [x])) options]
              /\ ownSlot c x = true)
      /\ (writesStateOnly c = true ->
          forall i cs,
            fire (Ui.control item) i = Some (Ok cs) ->
            cs = match stateWrite c h i with
                 | Some x => [x]
                 | None => []
                 end
            /\ (forall x, In x cs -> ownSlot c x = true)
            /\ noFormWrite cs /\ (List.length cs <= 1)%nat)
      /\ (callsFieldOnChange c = true ->
          forall i cs,
            fire (Ui.control item) i = Some (Ok cs) ->
            cs = [] \/ exists v, cs = FormFieldType.onChange field v)
      /\ (unwired c = true ->
          forall i, fire (Ui.control item) i = None)
      /\ (forall i x,
            stateWrite c h i = Some x ->
            exists cs, fire (Ui.control item) i = Some (Ok cs)).
Proof.
  intros field h c Hcase.
  destruct (renderFormField field FormRenderer.form (FormRenderer.bag h))
    as [item|] eqn:Hr.
  2:{ apply renderFormField_None_iff in Hr. unfold unknownVariant in Hr.
      rewrite Hcase in Hr. discriminate Hr. }
  exists item. split; [reflexivity|].
  destruct (other_controls_reach_no_slot field h c item Hcase Hr)
    as [Hcall Hunwired].
  split; [|split; [|split; [exact Hcall | split; [exact Hunwired|]]]].
  - intros Hb i cs Hfire.
    eapply both_writers_write_the_slot_value; eassumption.
  - intros Hb i cs Hfire.
    eapply state_writers_write_their_slot; eassumption.
  - intros i x Hx.
    eapply entering_a_value_has_a_handler; eassumption.
Qed.

Lemma handlers_write_by_case_class_witness :
  exists item,
    renderFormField (fieldOf "Tags Input" "keywords") FormRenderer.form
      (FormRenderer.bag FormRenderer.initial) = Some item
    /\ fire (Ui.control item) (PickValues ["a"; "b"]%string)
       = Some (Ok [ SetTagsValue ["a"; "b"]%string;
                    FormSetValue (VStr "keywords") (VArr [VStr "a"; VStr "b"])
                      [("shouldValidate", true); ("shouldDirty", true)]%string ])
    /\ exists x options,
         stateWrite CaseTagsInput FormRenderer.initial
           (PickValues ["a"; "b"]%string) = Some x
         /\ [ SetTagsValue ["a"; "b"]%string;
              FormSetValue (VStr "keywords") (VArr [VStr "a"; VStr "b"])
                [("shouldValidate", true); ("shouldDirty", true)]%string ]
            = [x; FormSetValue (VStr "keywords")
                    (slotValue CaseTagsInput
                       (FormRenderer.apply FormRenderer.initial [x]))
                    options]
         /\ ownSlot CaseTagsInput x = true.
Proof.
  destruct (handlers_write_by_case_class (fieldOf "Tags Input" "keywords")
              FormRenderer.initial CaseTagsInput eq_refl)
    as (item & Hr & Hboth & _).
  injection Hr as <-.
  eexists. split; [reflexivity|]. split; [reflexivity|].
  apply (Hboth eq_refl (PickValues ["a"; "b"]%string)).
  reflexivity.
Defined.

Example tags_input_writes_both :
  option_map (fun item => fire (Ui.control item) (PickValues ["a"; "b"]%string))
    (renderFormField (fieldOf "Tags Input" "keywords") FormRenderer.form
       (FormRenderer.bag FormRenderer.initial))
  = Some (Some (Ok [ SetTagsValue ["a"; "b"]%string;
                     FormSetValue (VStr "keywords")
                       (VArr [VStr "a"; VStr "b"])
                       [("shouldValidate", true); ("shouldDirty", true)]%string ])).
Proof. reflexivity. Qed.

Example date_picker_writes_state_only :
  option_map (fun item => fire (Ui.control item) (PickDate (Some 1700000000000)))
    (renderFormField (fieldOf "Date Picker" "birthday") FormRenderer.form
       (FormRenderer.bag FormRenderer.initial))
  = Some (Some (Ok [SetDate (Some 1700000000000)])).
Proof. reflexivity. Qed.

Example preview_setters_do_nothing :
  option_map (fun item => fire (Ui.control item) Toggle)
    (renderFormField (fieldOf "Checkbox" "subscribe") FormRenderer.form
       FormPreview.previewState)
  = Some (Some (Ok [])).
Proof. reflexivity. Qed.

(* --------------------------------------------------------------------- *)
(** *** One state bag for the whole form *)

Lemma renderedFields_from_the_bag (fields : list FormFieldType.t)
    (h : FormRenderer.Hooks) (f : FormFieldType.t) (item : Ui.FormItem) :
  In f fields ->
  renderFormField f FormRenderer.form (FormRenderer.bag h) = Some item ->
  exists ff,
    In (Some ff) (FormRenderer.renderedFields fields h)
    /\ React.name ff = FormFieldType.name f
    /\ forall formField,
         React.render ff formField
         = Ok {| React.className := None;
                 React.content := {| React.element := item;
                                     React.props := formField |} |}.
Proof.
  unfold FormRenderer.renderedFields, mapi. generalize 0.
  induction fields as [|a fields IH]; intros i Hin Hr; [contradiction|].
  cbn [mapi_from]. destruct Hin as [->|Hin].
  - cbv zeta. rewrite Hr. eexists. split; [left; reflexivity|].
    split; reflexivity.
  - destruct (IH (i + 1) Hin Hr) as (ff & Hff & Hrest).
    exists ff. split; [right; exact Hff | exact Hrest].
Qed.

(** C3.  In one [FormRenderer] every call of [renderFormField] is given
    the same state bag, built from the component's hooks: the element
    mounted for each field that has a case is the dispatcher's answer for
    that one bag.  So two fields of the same class read and write the same
    slot.  A Checkbox or a Switch displays the one [checked] flag, its
    toggle writes the negated flag, and after it every Checkbox and Switch
    displays the negated flag.  In the same way what is entered in one
    Combobox, Date Picker, Datetime Picker, Smart Datetime Input, File
    Input, Multi Select or Tags Input is what any other field of the same
    variant displays at the next render. *)
Theorem one_state_bag_aliases_same_class_fields :
  forall (fields : list FormFieldType.t) (h : FormRenderer.Hooks),
    (forall f c,
       In f fields ->
       switchCase (FormFieldType.variant f) = Some c ->
       exists ff item,
         In (Some ff) (FormRenderer.renderedFields fields h)
         /\ React.name ff = FormFieldType.name f
         /\ renderFormField f FormRenderer.form (FormRenderer.bag h)
            = Some item
         /\ forall formField,
              React.render ff formField
              = Ok {| React.className := None;
                      React.content := {| React.element := item;
                                          React.props := formField |} |})
    /\ (forall f1 f2 c1 c2,
          switchCase (FormFieldType.variant f1) = Some c1 ->
          switchCase (FormFieldType.variant f2) = Some c2 ->
          isToggleCase c1 = true ->
          isToggleCase c2 = true ->
          displayedChecked (shownControl h f1) = Some (FormRenderer.checked h)
          /\ displayedChecked (shownControl h f2)
             = Some (FormRenderer.checked h)
          /\ fire_toggle_of h f1
             = Some (Ok [SetChecked (negb (FormRenderer.checked h))])
          /\ FormRenderer.checked (interact h f1 Toggle)
             = negb (FormRenderer.checked h)
          /\ displayedChecked (shownControl (interact h f1 Toggle) f2)
             = Some (negb (FormRenderer.checked h))
          /\ displayedChecked (shownControl (interact h f1 Toggle) f1)
             = Some (negb (FormRenderer.checked h)))
    /\ (forall f1 f2 n language,
          switchCase (FormFieldType.variant f1) = Some CaseCombobox ->
          switchCase (FormFieldType.variant f2) = Some CaseCombobox ->
          nth_error languages n = Some language ->
          displayedLanguage (shownControl (interact h f1 (SelectItem n)) f2)
          = Some (VStr (Ui.lang_label language),
                  map (fun k => Nat.eqb k n)
                      (seq 0 (List.length languages))))
    /\ (forall f1 f2 d,
          switchCase (FormFieldType.variant f1) = Some CaseDatePicker ->
          switchCase (FormFieldType.variant f2) = Some CaseDatePicker ->
          displayedDate (shownControl h f2) = Some (FormRenderer.date h)
          /\ displayedDate (shownControl (interact h f1 (PickDate d)) f2)
             = Some d)
    /\ (forall f1 f2 d,
          switchCase (FormFieldType.variant f1) = Some CaseDatetimePicker ->
          switchCase (FormFieldType.variant f2) = Some CaseDatetimePicker ->
          displayedDate (shownControl h f2) = Some (FormRenderer.datetime h)
          /\ displayedDate
               (shownControl (interact h f1 (PickDate (Some d))) f2)
             = Some (Some d))
    /\ (forall f1 f2 d,
          switchCase (FormFieldType.variant f1)
          = Some CaseSmartDatetimeInput ->
          switchCase (FormFieldType.variant f2)
          = Some CaseSmartDatetimeInput ->
          displayedDate (shownControl h f2)
          = Some (FormRenderer.smartDatetime h)
          /\ displayedDate (shownControl (interact h f1 (TypeDate d)) f2)
             = Some (Some d))
    /\ (forall f1 f2 fs,
          switchCase (FormFieldType.variant f1) = Some CaseFileInput ->
          switchCase (FormFieldType.variant f2) = Some CaseFileInput ->
          displayedFiles (shownControl (interact h f1 (DropFiles fs)) f2)
          = Some (fs, match fs with
                      | Some l => map file_name l
                      | None => []
                      end))
    /\ (forall f1 f2 vs,
          switchCase (FormFieldType.variant f1) = Some CaseMultiSelect ->
          switchCase (FormFieldType.variant f2) = Some CaseMultiSelect ->
          displayedValues (shownControl h f2)
          = Some (FormRenderer.selectedValues h)
          /\ displayedValues (shownControl (interact h f1 (PickValues vs)) f2)
             = Some vs)
    /\ (forall f1 f2 vs,
          switchCase (FormFieldType.variant f1) = Some CaseTagsInput ->
          switchCase (FormFieldType.variant f2) = Some CaseTagsInput ->
          displayedValues (shownControl h f2)
          = Some (FormRenderer.tagsValue h)
          /\ displayedValues (shownControl (interact h f1 (PickValues vs)) f2)
             = Some vs).
Proof.
  intros fields h.
  split.
  { intros f c Hin Hcase.
    destruct (renderFormField f FormRenderer.form (FormRenderer.bag h))
      as [item|] eqn:Hr.
    2:{ apply renderFormField_None_iff in Hr. unfold unknownVariant in Hr.
        rewrite Hcase in Hr. discriminate Hr. }
    destruct (renderedFields_from_the_bag fields h f item Hin Hr)
      as (ff & Hff & Hn & Hrender).
    exists ff, item. repeat split; assumption. }
  split.
  { intros f1 f2 c1 c2 H1 H2 T1 T2.
    unfold fire_toggle_of, interact, handle, shownControl, renderFormField.
    rewrite H1, H2.
    destruct c1; try discriminate T1; destruct c2; try discriminate T2;
      cbn; repeat split. }
  split.
  { intros f1 f2 n language H1 H2 Hn.
    unfold interact, handle, shownControl, renderFormField.
    rewrite H1, H2. cbn zeta. cbn [Ui.control fire].
    rewrite nth_error_map, Hn. cbn [option_map].
    do 9 (destruct n as [|n]; [injection Hn as <-; reflexivity|]).
    destruct n; discriminate Hn. }
  refine (conj _ (conj _ (conj _ (conj _ (conj _ _)))));
    intros f1 f2 x H1 H2;
    unfold interact, handle, shownControl, renderFormField;
    rewrite H1, H2; cbn; repeat split.
Qed.

Lemma one_state_bag_aliases_same_class_fields_witness :
  displayedChecked
    (shownControl FormRenderer.initial (fieldOf "Switch" "darkMode"))
  = Some false
  /\ fire_toggle_of FormRenderer.initial (fieldOf "Checkbox" "subscribe")
     = Some (Ok [SetChecked true])
  /\ displayedChecked
       (shownControl
          (interact FormRenderer.initial (fieldOf "Checkbox" "subscribe")
             Toggle)
          (fieldOf "Switch" "darkMode"))
     = Some true
  /\ displayedValues
       (shownControl
          (interact FormRenderer.initial (fieldOf "Tags Input" "keywords")
             (PickValues ["a"]%string))
          (fieldOf "Tags Input" "labels"))
     = Some ["a"]%string.
Proof.
  destruct (one_state_bag_aliases_same_class_fields
              [fieldOf "Checkbox" "subscribe"; fieldOf "Switch" "darkMode";
               fieldOf "Tags Input" "keywords"; fieldOf "Tags Input" "labels"]
              FormRenderer.initial)
    as (_ & Hchk & _ & _ & _ & _ & _ & _ & Htags).
  destruct (Hchk (fieldOf "Checkbox" "subscribe") (fieldOf "Switch" "darkMode")
              CaseCheckbox CaseSwitch eq_refl eq_refl eq_refl eq_refl)
    as (_ & Hshow & Hfire & _ & Hafter & _).
  destruct (Htags (fieldOf "Tags Input" "keywords")
              (fieldOf "Tags Input" "labels") ["a"]%string eq_refl eq_refl)
    as (_ & Ht).
  repeat split; assumption.
Defined.

Example checkbox_and_switch_share_checked :
  let fields := [fieldOf "Checkbox" "subscribe"; fieldOf "Input" "email";
                 fieldOf "Switch" "darkMode"] in
  let shows h :=
    map (fun s => checkedOf (controlOf (snd s)))
        (shownFields echoController h fields) in
  shows FormRenderer.initial = [Some false; None; Some false]
  /\ option_map (fun s => fire (controlOf (snd s)) Toggle)
       (nth_error (shownFields echoController FormRenderer.initial fields) 0)
     = Some (Some (Ok [SetChecked true]))
  /\ shows (FormRenderer.apply FormRenderer.initial [SetChecked true])
     = [Some true; None; Some true].
Proof. cbv zeta. repeat split. Qed.

Example slider_and_combobox_share_value :
  let fields := [fieldOf "Slider" "price"; fieldOf "Combobox" "language"] in
  option_map (fun s => fire (controlOf (snd s)) (Slide [7]))
    (nth_error (shownFields echoController FormRenderer.initial fields) 0)
  = Some (Some (Ok [SetValue "7"%string]))
  /\ FormRenderer.value (FormRenderer.apply FormRenderer.initial [SetValue "7"%string])
     = "7"%string
  /\ State.value
       (FormRenderer.bag
          (FormRenderer.apply FormRenderer.initial [SetValue "7"%string]))
     = Some "7"%string.
Proof. cbv zeta. repeat split. Qed.

(* --------------------------------------------------------------------- *)
(** *** The JSON editor *)

Section Editor.

Variable JSON_parse : string -> result Val.

Lemma formData_is_last_parsed (es : list FormJsonBuilder.Event)
    (st : FormJsonBuilder.St) :
  FormJsonBuilder.lastParsed JSON_parse (FormJsonBuilder.jsonValue st) es
    (Some (FormJsonBuilder.formData st))
  = Some (FormJsonBuilder.formData (FormJsonBuilder.run JSON_parse st es)).
Proof.
  revert st. induction es as [|e es IH]; intros st; [reflexivity|].
  unfold FormJsonBuilder.run. cbn [fold_left].
  fold (FormJsonBuilder.run JSON_parse (FormJsonBuilder.step JSON_parse st e) es).
  rewrite <- IH. destruct e as [value|]; cbn [FormJsonBuilder.lastParsed].
  - unfold FormJsonBuilder.step, FormJsonBuilder.handleJsonChange.
    destruct (JSON_parse value); reflexivity.
  - unfold FormJsonBuilder.step, FormJsonBuilder.handleRefresh.
    destruct (JSON_parse (FormJsonBuilder.jsonValue st)); reflexivity.
Qed.

(** Whatever the user types or refreshes, the renderer is given the default
    form or a value that [JSON.parse] returned. *)
Lemma formData_is_default_or_parsed (JSON_stringify : Val -> string)
    (es : list FormJsonBuilder.Event) :
  let st := FormJsonBuilder.run JSON_parse
              (FormJsonBuilder.initial JSON_stringify) es in
  FormJsonBuilder.formData st = FormJsonBuilder.defaultFormJson
  \/ exists text, JSON_parse text = Ok (FormJsonBuilder.formData st).
Proof.
  cbv zeta.
  assert (Hinv : forall es st,
             (FormJsonBuilder.formData st = FormJsonBuilder.defaultFormJson
              \/ exists text, JSON_parse text = Ok (FormJsonBuilder.formData st)) ->
             let st' := FormJsonBuilder.run JSON_parse st es in
             FormJsonBuilder.formData st' = FormJsonBuilder.defaultFormJson
             \/ exists text, JSON_parse text = Ok (FormJsonBuilder.formData st')).
  { clear es. induction es as [|e es IH]; intros st Hst; [exact Hst|].
    cbv zeta. unfold FormJsonBuilder.run. cbn [fold_left].
    apply IH. destruct e as [value|];
      unfold FormJsonBuilder.step, FormJsonBuilder.handleJsonChange,
             FormJsonBuilder.handleRefresh.
    - destruct (JSON_parse value) eqn:Hp; cbn; [right; eauto | exact Hst].
    - destruct (JSON_parse (FormJsonBuilder.jsonValue st)) eqn:Hp; cbn;
        [right; eauto | exact Hst]. }
  apply Hinv. left. reflexivity.
Qed.

End Editor.

(** C6.  When the editor's text does not parse, on a change as on a
    refresh, the form definition given to the renderer and the renderer's
    key stay as they were, the error shown is 'Invalid JSON format', and
    the only other trace is the error toast of a refresh. *)
Theorem invalid_json_leaves_form_data_unchanged :
  forall (JSON_parse : string -> result Val) (st : FormJsonBuilder.St)
         (e : FormJsonBuilder.Event),
    isOk (JSON_parse (textOf e st)) = false ->
    let st' := FormJsonBuilder.step JSON_parse st e in
    FormJsonBuilder.formData st' = FormJsonBuilder.formData st
    /\ FormJsonBuilder.key st' = FormJsonBuilder.key st
    /\ FormJsonBuilder.error st' = "Invalid JSON format"%string
    /\ FormJsonBuilder.jsonValue st' = textOf e st
    /\ FormJsonBuilder.toasts st'
       = FormJsonBuilder.toasts st ++ failureToasts e.
Proof.
  intros JSON_parse st e Hfail. cbv zeta.
  destruct e as [value|]; cbn [textOf] in Hfail;
    unfold FormJsonBuilder.step, FormJsonBuilder.handleJsonChange,
           FormJsonBuilder.handleRefresh.
  - destruct (JSON_parse value); [discriminate Hfail|].
    cbn. rewrite app_nil_r. repeat split.
  - destruct (JSON_parse (FormJsonBuilder.jsonValue st));
      [discriminate Hfail|].
    cbn. repeat split.
Qed.

Lemma invalid_json_leaves_form_data_unchanged_witness :
  let st0 := FormJsonBuilder.initial (fun _ => "{}"%string) in
  let st1 := FormJsonBuilder.step parseEmptyObject st0
               (FormJsonBuilder.Change "{ fields: ") in
  let st2 := FormJsonBuilder.step parseEmptyObject st1
               FormJsonBuilder.Refresh in
  (FormJsonBuilder.formData st1 = FormJsonBuilder.defaultFormJson
   /\ FormJsonBuilder.error st1 = "Invalid JSON format"%string)
  /\ (FormJsonBuilder.formData st2 = FormJsonBuilder.defaultFormJson
      /\ FormJsonBuilder.key st2 = 0
      /\ FormJsonBuilder.toasts st2
         = [FormJsonBuilder.ToastError
              "Failed to refresh form: Invalid JSON format"]).
Proof.
  cbv zeta. split.
  - destruct (invalid_json_leaves_form_data_unchanged parseEmptyObject
                (FormJsonBuilder.initial (fun _ => "{}"%string))
                (FormJsonBuilder.Change "{ fields: ") eq_refl)
      as (Hd & _ & He & _).
    split; [exact Hd | exact He].
  - destruct (invalid_json_leaves_form_data_unchanged parseEmptyObject
                (FormJsonBuilder.step parseEmptyObject
                   (FormJsonBuilder.initial (fun _ => "{}"%string))
                   (FormJsonBuilder.Change "{ fields: "))
                FormJsonBuilder.Refresh eq_refl)
      as (Hd & Hk & _ & _ & Ht).
    split; [exact Hd|]. split; [exact Hk | exact Ht].
Defined.

Example valid_json_replaces_form_data :
  FormJsonBuilder.formData
    (FormJsonBuilder.step parseEmptyObject
       (FormJsonBuilder.initial (fun _ => "{}"%string))
       (FormJsonBuilder.Change "{}"))
  = VObj [].
Proof. reflexivity. Qed.

(* --------------------------------------------------------------------- *)
(** *** From the editor's default form to the mounted fields *)

Example default_form_shows_three_fields :
  match FormRenderer.formFields FormJsonBuilder.defaultFormJson with
  | Ok fields =>
      Some (map FormFieldType.variant fields,
            map fst (shownFields echoController FormRenderer.initial fields))
  | Throw _ => None
  end
  = Some ([VariantStr "Input"; VariantStr "Input"; VariantStr "Textarea"],
          [VStr "fullName"; VStr "email"; VStr "bio"]).
Proof. reflexivity. Qed.

Example form_without_fields_array_throws :
  FormRenderer.formFields (VObj [("fields", VNum 5)])
  = Throw (TypeError "formData.fields.map is not a function").
Proof. reflexivity. Qed.

Example type_in_an_array_is_a_key :
  variantOf (FormRenderer.convertJsonFieldToFormField
               (VObj [("type", VArr [VStr "text"]); ("name", VStr "a")]))
  = Some (VariantStr "Input").
Proof. reflexivity. Qed.

(* ===================================================================== *)
(** ** Further properties of the renderers *)
(* ===================================================================== *)

(* --------------------------------------------------------------------- *)
(** *** What is mounted, and in which order *)




Example FormRenderer_nameless_known_field_throws :
  match FormRenderer.formFields
          (VObj [("fields",
                  VArr [ VObj [("type", VStr "text"); ("name", VStr "a")];
                         VObj [("type", VStr "checkbox")] ])]) with
  | Ok fields =>
      React.mountChecked echoController
        (FormRenderer.renderedFields fields FormRenderer.initial)
  | Throw e => Throw e
  end
  = Throw React.nameTypeError.
Proof. reflexivity. Qed.

Example FormRenderer_nameless_unknown_field_is_skipped :
  match FormRenderer.formFields
          (VObj [("fields",
                  VArr [ VObj [("type", VStr "text"); ("name", VStr "a")];
                         VObj [("type", VStr "rating")] ])]) with
  | Ok fields =>
      option_map (map fst)
        (match React.mountChecked echoController
                 (FormRenderer.renderedFields fields FormRenderer.initial) with
         | Ok slots => Some slots
         | Throw _ => None
         end)
  | Throw _ => None
  end
  = Some [VStr "a"].
Proof. reflexivity. Qed.





(* --------------------------------------------------------------------- *)
(** *** When the conversion of a JSON field returns *)

Lemma string_of_uint_head (d : Decimal.uint) :
  exists c rest,
    NilZero.string_of_uint d = String c rest /\ In c digitsAndMinus.
Proof.
  destruct d; cbn; do 2 eexists; (split; [reflexivity|]); cbn; tauto.
Qed.

Lemma numToString_head (n : Z) :
  exists c rest, numToString n = String c rest /\ In c digitsAndMinus.
Proof.
  unfold numToString. destruct n as [|p|p]; cbn [Z.to_int NilZero.string_of_int].
  - exists "0"%char, EmptyString. split; [reflexivity | cbn; tauto].
  - apply string_of_uint_head.
  - do 2 eexists. split; [reflexivity | cbn; tauto].
Qed.

Lemma typeToVariant_get_printed_number (c : ascii) (rest : string) :
  In c digitsAndMinus ->
  FormRenderer.typeToVariant_get (String c rest) = None.
Proof.
  intros H. cbn in H.
  repeat (destruct H as [<-|H]; [reflexivity|]). contradiction.
Qed.

Lemma convert_spec (jsonField type : Val) :
  getProp jsonField "type" = Ok type ->
  isOk (FormRenderer.convertJsonFieldToFormField jsonField)
  = match FormRenderer.typeToVariant_get (toString type) with
    | Some _ => true
    | None => isString type
    end
  /\ (forall e,
        FormRenderer.convertJsonFieldToFormField jsonField = Throw e ->
        exists msg, e = TypeError msg)
  /\ (forall f,
        FormRenderer.convertJsonFieldToFormField jsonField = Ok f ->
        FormFieldType.name f = propOf jsonField "name"
        /\ FormFieldType.min f = VUndef
        /\ FormFieldType.max f = VUndef
        /\ FormFieldType.step f = VUndef
        /\ FormFieldType.variant f
           = match FormRenderer.typeToVariant_get (toString type) with
             | Some v => v
             | None => match type with
                       | VStr s => VariantStr (capitalize s)
                       | _ => VariantStr ""
                       end
             end
        /\ (forall v, FormFieldType.onChange f v = [])).
Proof.
  intros Ht. unfold FormRenderer.convertJsonFieldToFormField, propOf.
  rewrite Ht. cbn [Js.bind].
  destruct (getProp_total _ _ _ "label" Ht) as [x1 ->].
  destruct (getProp_total _ _ _ "name" Ht) as [x2 ->].
  destruct (getProp_total _ _ _ "placeholder" Ht) as [x3 ->].
  destruct (getProp_total _ _ _ "required" Ht) as [x4 ->].
  destruct (getProp_total _ _ _ "description" Ht) as [x5 ->].
  destruct (getProp_total _ _ _ "options" Ht) as [x6 ->].
  destruct (getProp_total _ _ _ "disabled" Ht) as [x7 ->].
  destruct (getProp_total _ _ _ "value" Ht) as [x8 ->].
  destruct (getProp_total _ _ _ "checked" Ht) as [x9 ->].
  destruct (FormRenderer.typeToVariant_get (toString type)) as [v|].
  - cbn [Js.bind isOk]. split; [reflexivity|]. split; [discriminate|].
    intros f [= <-]. repeat split.
  - destruct type; cbn [FormRenderer.capitalized Js.bind isOk isString];
      (split; [reflexivity|]);
      (split; [intros e [= <-]; eexists; reflexivity
              | try discriminate; intros f [= <-]; repeat split]).
Qed.

Lemma convert_needs_a_value (jsonField : Val) :
  (forall type, getProp jsonField "type" <> Ok type) ->
  exists msg,
    FormRenderer.convertJsonFieldToFormField jsonField = Throw (TypeError msg).
Proof.
  intros H. unfold FormRenderer.convertJsonFieldToFormField.
  destruct jsonField; cbn in *;
    try (exfalso; eapply H; reflexivity);
    eexists; reflexivity.
Qed.

(** X3.  [convertJsonFieldToFormField] returns exactly when the JSON field
    is not [null] and its [type] is a string, or prints as a key of the
    table or as the name of an inherited property (which only an array can
    do besides a string); a field without [type], or whose [type] is a
    number, a boolean, [null] or an object, makes it throw, and whatever
    it throws is a TypeError. *)
Theorem convert_returns_iff_type_is_usable :
  forall jsonField : Val,
    (isOk (FormRenderer.convertJsonFieldToFormField jsonField) = true
     <-> exists type,
           getProp jsonField "type" = Ok type
           /\ (isString type = true
               \/ FormRenderer.typeToVariant_get (toString type) <> None))
    /\ (forall e,
          FormRenderer.convertJsonFieldToFormField jsonField = Throw e ->
          exists msg, e = TypeError msg)
    /\ (forall type,
          getProp jsonField "type" = Ok type ->
          match type with
          | VStr _ => isOk (FormRenderer.convertJsonFieldToFormField jsonField)
                      = true
          | VArr _ => True
          | _ => isOk (FormRenderer.convertJsonFieldToFormField jsonField)
                 = false
          end).
Proof.
  intros jsonField.
  destruct (getProp jsonField "type") as [type|e0] eqn:Ht.
  - destruct (convert_spec jsonField type Ht) as (Hok & Herr & _).
    split; [|split].
    + rewrite Hok. split.
      * intros H. exists type. split; [reflexivity|].
        destruct (FormRenderer.typeToVariant_get (toString type));
          [right; discriminate | left; exact H].
      * intros (t & [= <-] & [Hs|Hk]).
        -- rewrite Hs. now destruct (FormRenderer.typeToVariant_get _).
        -- destruct (FormRenderer.typeToVariant_get _);
             [reflexivity | contradiction].
    + exact Herr.
    + intros t [= <-]. rewrite Hok.
      destruct type as [| |b|n|s|l|l]; try exact I; cbn [toString isString].
      * reflexivity.
      * reflexivity.
      * destruct b; reflexivity.
      * destruct (numToString_head n) as (c & rest & -> & Hc).
        now rewrite (typeToVariant_get_printed_number c rest Hc).
      * now destruct (FormRenderer.typeToVariant_get s).
      * reflexivity.
  - assert (Hno : forall type, getProp jsonField "type" <> Ok type)
      by (intros type H; congruence).
    destruct (convert_needs_a_value jsonField Hno) as (msg & Hthrow).
    split; [|split].
    + rewrite Hthrow. split; [discriminate|].
      intros (t & H & _). discriminate H.
    + intros e He. rewrite Hthrow in He. injection He as <-. eauto.
    + intros t H. discriminate H.
Qed.

Example convert_number_type_throws :
  FormRenderer.convertJsonFieldToFormField
    (VObj [("type", VNum 3); ("name", VStr "n")])
  = Throw (TypeError "jsonField.type.charAt is not a function").
Proof. reflexivity. Qed.

Example convert_null_field_throws :
  FormRenderer.convertJsonFieldToFormField VNull
  = Throw (TypeError "Cannot read properties of null (reading 'type')").
Proof. reflexivity. Qed.

(* --------------------------------------------------------------------- *)
(** *** Converting the whole list *)

Lemma mapM_Forall2 {A B} (f : A -> result B) (l : list A) (bs : list B) :
  mapM f l = Ok bs <-> Forall2 (fun a b => f a = Ok b) l bs.
Proof.
  revert bs. induction l as [|a l IH]; intros bs; cbn [mapM].
  - split.
    + intros [= <-]. constructor.
    + intros H. inversion H. reflexivity.
  - split.
    + destruct (f a) as [b|] eqn:Hf; cbn [Js.bind]; [|discriminate].
      destruct (mapM f l) as [bs'|] eqn:Hm; cbn [Js.bind]; [|discriminate].
      intros [= <-]. constructor; [exact Hf|]. now apply IH.
    + intros H. inversion H as [|a' b l' bs' Hf Hrest]; subst.
      rewrite Hf. cbn [Js.bind].
      apply IH in Hrest. rewrite Hrest. reflexivity.
Qed.

Lemma mapM_throws {A B} (f : A -> result B) (l : list A) (a : A) :
  In a l -> isOk (f a) = false -> isOk (mapM f l) = false.
Proof.
  induction l as [|x l IH]; intros Hin Hf; [contradiction|].
  cbn [mapM]. destruct Hin as [->|Hin].
  - destruct (f a); [discriminate Hf | reflexivity].
  - destruct (f x); cbn [Js.bind]; [|reflexivity].
    specialize (IH Hin Hf). destruct (mapM f l); [discriminate IH|reflexivity].
Qed.

(** X4.  [formData.fields.map(convertJsonFieldToFormField)] is all or
    nothing: it returns only when [fields] is an array, and then with one
    converted field per element, in order and under the element's name; a
    single element that does not convert makes the whole list, and with it
    the render of [FormRenderer], throw. *)
Theorem formFields_all_or_nothing :
  forall formData : Val,
    (forall fs,
       FormRenderer.formFields formData = Ok fs ->
       exists l,
         getProp formData "fields" = Ok (VArr l)
         /\ Forall2 (fun j f =>
                       FormRenderer.convertJsonFieldToFormField j = Ok f) l fs
         /\ List.length fs = List.length l
         /\ map FormFieldType.name fs = map (fun j => propOf j "name") l)
    /\ (forall l j,
          getProp formData "fields" = Ok (VArr l) ->
          In j l ->
          isOk (FormRenderer.convertJsonFieldToFormField j) = false ->
          isOk (FormRenderer.formFields formData) = false)
    /\ (forall v,
          getProp formData "fields" = Ok v ->
          (forall l, v <> VArr l) ->
          isOk (FormRenderer.formFields formData) = false).
Proof.
  intros formData. unfold FormRenderer.formFields.
  split; [|split].
  - intros fs H.
    destruct (getProp formData "fields") as [v|] eqn:Hp; [|discriminate H].
    cbn [Js.bind] in H.
    destruct v; try discriminate H.
    exists l. split; [reflexivity|].
    apply mapM_Forall2 in H. split; [exact H|].
    split.
    + symmetry. eapply Forall2_length; eassumption.
    + clear Hp. induction H as [|j f l fs Hc _ IH]; [reflexivity|].
      cbn [map]. f_equal; [|exact IH].
      assert (Ht : exists t, getProp j "type" = Ok t).
      { unfold FormRenderer.convertJsonFieldToFormField in Hc.
        destruct (getProp j "type") as [t|]; [eauto | discriminate Hc]. }
      destruct Ht as [t Ht].
      destruct (convert_spec j t Ht) as (_ & _ & Hf).
      apply (Hf f Hc).
  - intros l j -> Hin Hbad. cbn [Js.bind].
    eapply mapM_throws; eassumption.
  - intros v -> Hv. cbn [Js.bind].
    destruct v; try reflexivity. exfalso. eapply Hv. reflexivity.
Qed.

Lemma formFields_all_or_nothing_witness :
  isOk (FormRenderer.formFields
          (VObj [("fields",
                  VArr [ VObj [("type", VStr "text"); ("name", VStr "a")];
                         VObj [("name", VStr "b")] ])]))
  = false
  /\ isOk (FormRenderer.formFields (VObj [("fields", VStr "none")])) = false.
Proof.
  destruct (formFields_all_or_nothing
              (VObj [("fields",
                      VArr [ VObj [("type", VStr "text"); ("name", VStr "a")];
                             VObj [("name", VStr "b")] ])]))
    as (_ & Hbad & _).
  destruct (formFields_all_or_nothing (VObj [("fields", VStr "none")]))
    as (_ & _ & Hshape).
  split.
  - apply (Hbad _ (VObj [("name", VStr "b")]) eq_refl).
    + simpl. right. left. reflexivity.
    + reflexivity.
  - apply (Hshape (VStr "none") eq_refl). discriminate.
Defined.

(* --------------------------------------------------------------------- *)
(** *** Which JSON types get a control *)

Lemma upperAscii_inv (c d : ascii) :
  upperAscii c = d -> c = d \/ c = lowerAscii d.
Proof.
  intros <-.
  destruct c as [[] [] [] [] [] [] [] []];
    first [left; reflexivity | right; reflexivity].
Qed.

Lemma capitalize_inv (t l : string) :
  capitalize t = l -> t = l \/ t = lowerFirst l.
Proof.
  intros <-. destruct t as [|c t]; [left; reflexivity|].
  unfold capitalize. cbn [charAt0 slice1 toUpperCase String.append lowerFirst].
  destruct (upperAscii_inv c _ eq_refl) as [H|H].
  - left. now rewrite <- H.
  - right. now rewrite <- H.
Qed.

Lemma assoc_Some_In {A} (k : string) (l : list (string * A)) (a : A) :
  assoc k l = Some a -> In k (map fst l).
Proof.
  induction l as [|[k' a'] l IH]; cbn; [discriminate|].
  destruct (String.eqb_spec k k') as [->|_]; [now left|].
  intros H. right. now apply IH.
Qed.

Lemma assoc_Some_In_pair {A} (k : string) (l : list (string * A)) (a : A) :
  assoc k l = Some a -> In (k, a) l.
Proof.
  induction l as [|[k' a'] l IH]; cbn; [discriminate|].
  destruct (String.eqb_spec k k') as [->|_].
  - intros [= ->]. now left.
  - intros H. right. now apply IH.
Qed.

Lemma strIn_In (s : string) (l : list string) :
  strIn s l = true <-> In s l.
Proof.
  unfold strIn. rewrite existsb_exists. split.
  - intros (k & Hin & Heq). apply String.eqb_eq in Heq. now subst.
  - intros H. exists s. split; [exact H | apply String.eqb_refl].
Qed.

Lemma json_type_known_iff (jsonField : Val) (t : string)
    (f : FormFieldType.t) :
  getProp jsonField "type" = Ok (VStr t) ->
  FormRenderer.convertJsonFieldToFormField jsonField = Ok f ->
  (unknownVariant f = false <-> strIn t renderedTypes = true).
Proof.
  intros Ht Hf0.
  destruct (convert_string_type jsonField t Ht) as (f' & Hf & Hv).
  rewrite Hf in Hf0. injection Hf0 as <-.
  unfold unknownVariant. rewrite Hv.
  unfold FormRenderer.typeToVariant_get.
  destruct (assoc t FormRenderer.typeToVariant) as [v|] eqn:Hown.
  - split; intros _.
    + apply strIn_In. unfold renderedTypes. apply in_or_app. left.
      eapply assoc_Some_In; eassumption.
    + apply assoc_Some_In_pair in Hown. cbn in Hown.
      repeat (destruct Hown as [[= <- <-]|Hown]; [reflexivity|]).
      contradiction.
  - destruct (strIn t objectPrototypeKeys) eqn:Hinh.
    + cbn [switchCase]. split; [discriminate|].
      intros Hr. apply strIn_In in Hinh. cbn in Hinh.
      repeat (destruct Hinh as [<-|Hinh]; [discriminate Hr|]).
      contradiction.
    + cbn [switchCase]. split.
      * destruct (assoc (capitalize t) caseLabels) as [c|] eqn:Hc;
          [intros _ | discriminate].
        apply assoc_Some_In in Hc. apply strIn_In.
        unfold renderedTypes. apply in_or_app. right. apply in_or_app.
        set (labels := map fst caseLabels) in *.
        assert (Hl : exists l, In l labels /\ capitalize t = l) by eauto.
        destruct Hl as (l & Hin & Hcap).
        destruct (capitalize_inv t l Hcap) as [->| ->];
          [left; exact Hin | right; now apply in_map].
      * intros Hr. apply strIn_In in Hr. unfold renderedTypes in Hr.
        cbn in Hr.
        repeat (destruct Hr as [<-|Hr]; [first [reflexivity | discriminate Hown]|]).
        contradiction.
Qed.

(** X5.  A JSON field whose [type] is a string that is empty or starts
    with an ASCII character gets a control from the dispatcher exactly when
    the string is a key of [typeToVariant], a [case] label of the
    dispatcher, or such a label with its first letter in lower case; every
    other such type string converts to a field for which the dispatcher
    answers [null], which the JSON-driven renderer leaves out. *)
Theorem json_type_rendered_iff :
  forall (jsonField : Val) (t : string),
    getProp jsonField "type" = Ok (VStr t) ->
    asciiFirst t = true ->
    exists f,
      FormRenderer.convertJsonFieldToFormField jsonField = Ok f
      /\ (unknownVariant f = false <-> strIn t renderedTypes = true)
      /\ (forall form state,
            renderFormField f form state = None
            <-> strIn t renderedTypes = false)
      /\ (forall h,
            FormRenderer.renderedFields [f] h = [None]
            <-> strIn t renderedTypes = false).
Proof.
  intros jsonField t Ht _.
  destruct (convert_string_type jsonField t Ht) as (f & Hf & Hv).
  exists f. split; [exact Hf|].
  pose proof (json_type_known_iff jsonField t f Ht Hf) as Hiff.
  split; [exact Hiff|].
  assert (Hnone : forall form state,
             renderFormField f form state = None
             <-> strIn t renderedTypes = false).
  { intros form state. rewrite renderFormField_None_iff.
    destruct (unknownVariant f), (strIn t renderedTypes);
      destruct Hiff as [H1 H2]; split; intros H;
      try reflexivity; try discriminate H;
      try (specialize (H1 eq_refl); discriminate H1);
      try (specialize (H2 eq_refl); discriminate H2). }
  split; [exact Hnone|].
  intros h. rewrite <- (Hnone FormRenderer.form (FormRenderer.bag h)).
  unfold FormRenderer.renderedFields, mapi. cbn [mapi_from]. cbv zeta.
  destruct (renderFormField f FormRenderer.form (FormRenderer.bag h));
    split; intros H; try reflexivity; discriminate H.
Qed.

Lemma json_type_rendered_iff_witness :
  (exists f,
     FormRenderer.convertJsonFieldToFormField
       (VObj [("type", VStr "multi Select"); ("name", VStr "skills")]) = Ok f
     /\ unknownVariant f = false)
  /\ (exists f,
        FormRenderer.convertJsonFieldToFormField
          (VObj [("type", VStr "file-input"); ("name", VStr "docs")]) = Ok f
        /\ FormRenderer.renderedFields [f] FormRenderer.initial = [None]).
Proof.
  split.
  - destruct (json_type_rendered_iff
                (VObj [("type", VStr "multi Select"); ("name", VStr "skills")])
                "multi Select"%string eq_refl eq_refl) as (f & Hf & Hiff & _).
    exists f. split; [exact Hf|]. apply Hiff. reflexivity.
  - destruct (json_type_rendered_iff
                (VObj [("type", VStr "file-input"); ("name", VStr "docs")])
                "file-input"%string eq_refl eq_refl) as (f & Hf & _ & _ & Hm).
    exists f. split; [exact Hf|]. apply Hm. reflexivity.
Defined.

(* --------------------------------------------------------------------- *)
(** *** What a JSON slider keeps of its constraints *)

Lemma slider_hooks_free (field : FormFieldType.t) (form : Form.t)
    (state : State.t) :
  switchCase (FormFieldType.variant field) = Some CaseSlider ->
  exists item handler,
    renderFormField field form state = Some item
    /\ Ui.control item
       = Ui.Slider (orElse (FormFieldType.min field) (VNum 0))
                   (orElse (FormFieldType.max field) (VNum 100))
                   (orElse (FormFieldType.step field) (VNum 1))
                   [5] handler.
Proof.
  intros Hcase. unfold renderFormField. rewrite Hcase. cbn zeta.
  do 2 eexists. split; reflexivity.
Qed.

(** X6.  The conversion copies none of [min], [max], [step] and
    [defaultValue], so that every slider described in JSON, whatever
    constraints it declares, is mounted with the range 0 to 100, the step 1
    and the default value 5. *)
Theorem json_slider_constraints_are_dropped :
  forall (jsonField : Val) (form : Form.t) (state : State.t),
    getProp jsonField "type" = Ok (VStr "slider") ->
    exists f item handler,
      FormRenderer.convertJsonFieldToFormField jsonField = Ok f
      /\ renderFormField f form state = Some item
      /\ Ui.control item
         = Ui.Slider (VNum 0) (VNum 100) (VNum 1) [5] handler.
Proof.
  intros jsonField form state Ht.
  destruct (convert_string_type jsonField _ Ht) as (f & Hf & Hv).
  destruct (convert_spec jsonField _ Ht) as (_ & _ & Hprops).
  destruct (Hprops f Hf) as (_ & Hmin & Hmax & Hstep & _).
  cbn in Hv.
  assert (Hcase : switchCase (FormFieldType.variant f) = Some CaseSlider)
    by now rewrite Hv.
  destruct (slider_hooks_free f form state Hcase)
    as (item & handler & Hr & Hc).
  exists f, item, handler. split; [exact Hf|]. split; [exact Hr|].
  rewrite Hc, Hmin, Hmax, Hstep. reflexivity.
Qed.

Lemma json_slider_constraints_are_dropped_witness :
  exists f item handler,
    FormRenderer.convertJsonFieldToFormField
      (VObj [ ("type", VStr "slider"); ("name", VStr "priceRange");
              ("min", VNum 0); ("max", VNum 1000); ("step", VNum 10);
              ("defaultValue", VNum 500) ]) = Ok f
    /\ renderFormField f FormRenderer.form
         (FormRenderer.bag FormRenderer.initial) = Some item
    /\ Ui.control item = Ui.Slider (VNum 0) (VNum 100) (VNum 1) [5] handler.
Proof.
  apply (json_slider_constraints_are_dropped
           (VObj [ ("type", VStr "slider"); ("name", VStr "priceRange");
                   ("min", VNum 0); ("max", VNum 1000); ("step", VNum 10);
                   ("defaultValue", VNum 500) ])
           FormRenderer.form (FormRenderer.bag FormRenderer.initial)).
  reflexivity.
Defined.

(* ===================================================================== *)
(** ** Further properties of the JSON editor *)
(* ===================================================================== *)

(** X7.  A refresh right after a change never alters the form data, the
    error or the text: the change has already parsed the same text.  The
    refresh only adds its toast and, when the text is valid, increments the
    key that remounts the preview. *)
Theorem refresh_after_change_only_remounts :
  forall (JSON_parse : string -> result Val) (st : FormJsonBuilder.St)
         (value : string),
    let st1 := FormJsonBuilder.handleJsonChange JSON_parse value st in
    let st2 := FormJsonBuilder.handleRefresh JSON_parse st1 in
    FormJsonBuilder.formData st2 = FormJsonBuilder.formData st1
    /\ FormJsonBuilder.error st2 = FormJsonBuilder.error st1
    /\ FormJsonBuilder.jsonValue st2 = value
    /\ FormJsonBuilder.key st1 = FormJsonBuilder.key st
    /\ FormJsonBuilder.key st2
       = FormJsonBuilder.key st
         + (if isOk (JSON_parse value) then 1 else 0)
    /\ FormJsonBuilder.toasts st2
       = FormJsonBuilder.toasts st
         ++ [if isOk (JSON_parse value)
             then FormJsonBuilder.ToastSuccess "Form refreshed successfully"
             else FormJsonBuilder.ToastError
                    "Failed to refresh form: Invalid JSON format"].
Proof.
  intros JSON_parse st value. cbv zeta.
  unfold FormJsonBuilder.handleRefresh, FormJsonBuilder.handleJsonChange.
  destruct (JSON_parse value) as [parsed|e] eqn:Hp;
    cbn [FormJsonBuilder.jsonValue]; rewrite Hp; cbn;
    repeat split; lia.
Qed.

Section EditorInvariant.

Variable JSON_parse : string -> result Val.

Lemma step_inSync (st : FormJsonBuilder.St) (e : FormJsonBuilder.Event) :
  inSync JSON_parse (FormJsonBuilder.step JSON_parse st e).
Proof.
  unfold inSync. destruct e as [value|];
    unfold FormJsonBuilder.step, FormJsonBuilder.handleJsonChange,
           FormJsonBuilder.handleRefresh.
  - destruct (JSON_parse value) as [parsed|x] eqn:Hp; cbn.
    + left. split; [reflexivity | exact Hp].
    + right. rewrite Hp. split; reflexivity.
  - destruct (JSON_parse (FormJsonBuilder.jsonValue st)) as [parsed|x] eqn:Hp;
      cbn.
    + left. split; [reflexivity | exact Hp].
    + right. rewrite Hp. split; reflexivity.
Qed.

Lemma run_inSync (es : list FormJsonBuilder.Event) (st : FormJsonBuilder.St) :
  inSync JSON_parse st ->
  inSync JSON_parse (FormJsonBuilder.run JSON_parse st es).
Proof.
  revert st. induction es as [|e es IH]; intros st Hst; [exact Hst|].
  unfold FormJsonBuilder.run. cbn [fold_left]. apply IH, step_inSync.
Qed.

End EditorInvariant.

(** X8.  If the printed default form parses back to the default form, then
    after any sequence of changes and refreshes either no error is shown
    and the form data is the parse of the text in the editor, or the error
    'Invalid JSON format' is shown and the text in the editor does not
    parse. *)
Theorem editor_in_sync_iff_no_error :
  forall (JSON_parse : string -> result Val) (JSON_stringify : Val -> string)
         (es : list FormJsonBuilder.Event),
    JSON_parse (JSON_stringify FormJsonBuilder.defaultFormJson)
    = Ok FormJsonBuilder.defaultFormJson ->
    inSync JSON_parse
      (FormJsonBuilder.run JSON_parse
         (FormJsonBuilder.initial JSON_stringify) es).
Proof.
  intros JSON_parse JSON_stringify es Hround.
  apply run_inSync. left. split; [reflexivity | exact Hround].
Qed.

Lemma editor_in_sync_iff_no_error_witness :
  inSync parseD
    (FormJsonBuilder.run parseD (FormJsonBuilder.initial printD)
       [ FormJsonBuilder.Change "{"; FormJsonBuilder.Refresh;
         FormJsonBuilder.Change "D" ])
  /\ FormJsonBuilder.error
       (FormJsonBuilder.run parseD (FormJsonBuilder.initial printD)
          [ FormJsonBuilder.Change "{"; FormJsonBuilder.Refresh ])
     = "Invalid JSON format"%string.
Proof.
  split.
  - apply (editor_in_sync_iff_no_error parseD printD
             [ FormJsonBuilder.Change "{"; FormJsonBuilder.Refresh;
               FormJsonBuilder.Change "D" ]).
    reflexivity.
  - reflexivity.
Defined.

(** X9.  Over any sequence of editor events exactly one toast is added per
    refresh and none per change, and the preview's key grows by the number
    of success toasts: the preview is remounted only by a refresh of valid
    text, never by typing. *)
Theorem key_counts_successful_refreshes :
  forall (JSON_parse : string -> result Val)
         (es : list FormJsonBuilder.Event) (st : FormJsonBuilder.St),
    exists added,
      FormJsonBuilder.toasts (FormJsonBuilder.run JSON_parse st es)
      = FormJsonBuilder.toasts st ++ added
      /\ List.length added = refreshes es
      /\ FormJsonBuilder.key (FormJsonBuilder.run JSON_parse st es)
         = FormJsonBuilder.key st + Z.of_nat (successes added)
      /\ FormJsonBuilder.key st
         <= FormJsonBuilder.key (FormJsonBuilder.run JSON_parse st es).
Proof.
  intros JSON_parse es.
  induction es as [|e es IH]; intros st.
  - exists []. cbn. rewrite app_nil_r. repeat split; lia.
  - unfold FormJsonBuilder.run. cbn [fold_left].
    destruct (IH (FormJsonBuilder.step JSON_parse st e))
      as (added & Ht & Hl & Hk & _).
    unfold FormJsonBuilder.run in *. rewrite Ht, Hk.
    destruct e as [value|];
      unfold FormJsonBuilder.step, FormJsonBuilder.handleJsonChange,
             FormJsonBuilder.handleRefresh.
    + exists added.
      destruct (JSON_parse value); cbn; repeat split; try assumption; lia.
    + destruct (JSON_parse (FormJsonBuilder.jsonValue st)); cbn.
      * exists (FormJsonBuilder.ToastSuccess "Form refreshed successfully"
                :: added).
        rewrite <- app_assoc. cbn. unfold refreshes, successes in *. cbn.
        repeat split; lia.
      * exists (FormJsonBuilder.ToastError
                  "Failed to refresh form: Invalid JSON format" :: added).
        rewrite <- app_assoc. cbn. unfold refreshes, successes in *. cbn.
        repeat split; lia.
Qed.

(* ===================================================================== *)
(** ** Interactions in the JSON-driven renderer and in the preview *)
(* ===================================================================== *)

(** X10.  In the JSON-driven renderer, choosing a country and then a state
    leaves both names in the hooks and [country, state] as the last form
    value under the field's name.  In the builder's preview, whose state
    bag is constant, the same two choices write [country, ''] and then
    ['', state]: the form value never holds both. *)
Theorem location_input_country_then_state :
  forall (field : FormFieldType.t) (h : FormRenderer.Hooks)
         (c s : Ui.Country),
    switchCase (FormFieldType.variant field) = Some CaseLocationInput ->
    let h1 := interact h field (PickCountry (Some c)) in
    let h2 := interact h1 field (PickState (Some s)) in
    FormRenderer.countryName h2 = Ui.country_name c
    /\ FormRenderer.stateName h2 = Ui.country_name s
    /\ FormRenderer.formWrites h2
       = (FormFieldType.name field,
          VArr [VStr (Ui.country_name c); VStr (Ui.country_name s)])
         :: (FormFieldType.name field,
             VArr [VStr (Ui.country_name c); VStr (FormRenderer.stateName h)])
         :: FormRenderer.formWrites h
    /\ handle field FormRenderer.form FormPreview.previewState
         (PickCountry (Some c))
       = [FormSetValue (FormFieldType.name field)
            (VArr [VStr (Ui.country_name c); VStr ""]) []]
    /\ handle field FormRenderer.form FormPreview.previewState
         (PickState (Some s))
       = [FormSetValue (FormFieldType.name field)
            (VArr [VStr ""; VStr (Ui.country_name s)]) []].
Proof.
  intros field h c s Hcase. cbv zeta.
  unfold interact, handle, renderFormField. rewrite Hcase. cbn.
  repeat split.
Qed.

Lemma location_input_country_then_state_witness :
  FormRenderer.formWrites
    (interact
       (interact FormRenderer.initial (fieldOf "Location Input" "location")
          (PickCountry (Some {| Ui.country_name := "France" |})))
       (fieldOf "Location Input" "location")
       (PickState (Some {| Ui.country_name := "Corse" |})))
  = [ (VStr "location", VArr [VStr "France"; VStr "Corse"]);
      (VStr "location", VArr [VStr "France"; VStr ""]) ]
  /\ handle (fieldOf "Location Input" "location") FormRenderer.form
       FormPreview.previewState
       (PickState (Some {| Ui.country_name := "Corse" |}))
     = [FormSetValue (VStr "location") (VArr [VStr ""; VStr "Corse"]) []].
Proof.
  destruct (location_input_country_then_state
              (fieldOf "Location Input" "location") FormRenderer.initial
              {| Ui.country_name := "France" |}
              {| Ui.country_name := "Corse" |} eq_refl)
    as (_ & _ & Hw & _ & Hp).
  split; [exact Hw | exact Hp].
Defined.

(** X11.  Selecting the n-th language of a Combobox stores its code in the
    [value] slot and as the form value under the field's name; at the next
    render the button shows that language's label and the check mark is on
    the n-th item and on no other. *)
Theorem combobox_select_then_display :
  forall (field : FormFieldType.t) (h : FormRenderer.Hooks) (n : nat)
         (language : Ui.Language),
    switchCase (FormFieldType.variant field) = Some CaseCombobox ->
    nth_error languages n = Some language ->
    let h' := interact h field (SelectItem n) in
    FormRenderer.value h' = Ui.lang_value language
    /\ FormRenderer.formWrites h'
       = (FormFieldType.name field, VStr (Ui.lang_value language))
         :: FormRenderer.formWrites h
    /\ displayedLanguage (shownControl h' field)
       = Some (VStr (Ui.lang_label language),
               map (fun k => Nat.eqb k n) (seq 0 (List.length languages))).
Proof.
  intros field h n language Hcase Hn. cbv zeta.
  unfold interact, handle, shownControl, renderFormField. rewrite Hcase.
  cbn zeta. cbn [Ui.control fire]. rewrite nth_error_map, Hn.
  cbn [option_map].
  do 9 (destruct n as [|n]; [injection Hn as <-; repeat split|]).
  destruct n; discriminate Hn.
Qed.

Lemma combobox_select_then_display_witness :
  displayedLanguage
    (shownControl
       (interact FormRenderer.initial (fieldOf "Combobox" "language")
          (SelectItem 2))
       (fieldOf "Combobox" "language"))
  = Some (VStr "German",
          [false; false; true; false; false; false; false; false; false]).
Proof.
  destruct (combobox_select_then_display (fieldOf "Combobox" "language")
              FormRenderer.initial 2
              {| Ui.lang_label := "German"; Ui.lang_value := "de" |}
              eq_refl eq_refl) as (_ & _ & Hd).
  exact Hd.
Defined.

(** X12.  For a Tags Input and for a Multi Select, after the user changes
    the list the control displays the new list and the last form value
    under the field's name is the same list; the two controls use different
    slots, so neither changes what the other displays. *)
Theorem tags_and_multi_select_state_matches_form :
  forall (tags multi : FormFieldType.t) (h : FormRenderer.Hooks)
         (vs : list string),
    switchCase (FormFieldType.variant tags) = Some CaseTagsInput ->
    switchCase (FormFieldType.variant multi) = Some CaseMultiSelect ->
    let ht := interact h tags (PickValues vs) in
    let hm := interact h multi (PickValues vs) in
    displayedValues (shownControl ht tags) = Some vs
    /\ FormRenderer.formWrites ht
       = (FormFieldType.name tags, VArr (map VStr vs))
         :: FormRenderer.formWrites h
    /\ displayedValues (shownControl hm multi) = Some vs
    /\ FormRenderer.formWrites hm
       = (FormFieldType.name multi, VArr (map VStr vs))
         :: FormRenderer.formWrites h
    /\ displayedValues (shownControl ht multi)
       = displayedValues (shownControl h multi)
    /\ displayedValues (shownControl hm tags)
       = displayedValues (shownControl h tags).
Proof.
  intros tags multi h vs Ht Hm. cbv zeta.
  unfold interact, handle, shownControl, renderFormField.
  rewrite Ht, Hm. cbn. repeat split.
Qed.

Lemma tags_and_multi_select_state_matches_form_witness :
  displayedValues
    (shownControl
       (interact FormRenderer.initial (fieldOf "Tags Input" "keywords")
          (PickValues ["rocq"; "react"]%string))
       (fieldOf "Tags Input" "keywords"))
  = Some ["rocq"; "react"]%string
  /\ FormRenderer.formWrites
       (interact FormRenderer.initial (fieldOf "Tags Input" "keywords")
          (PickValues ["rocq"; "react"]%string))
     = [(VStr "keywords", VArr [VStr "rocq"; VStr "react"])].
Proof.
  destruct (tags_and_multi_select_state_matches_form
              (fieldOf "Tags Input" "keywords")
              (fieldOf "Multi Select" "skills") FormRenderer.initial
              ["rocq"; "react"]%string eq_refl eq_refl)
    as (Hd & Hw & _).
  split; [exact Hd | exact Hw].
Defined.

(** X13.  A Date Picker displays whatever was last selected and is cleared
    by deselecting; a Datetime Picker takes a new date but ignores an empty
    one, so it cannot be cleared; a Smart Datetime Input displays the date
    typed; a File Input holds the dropped files and lists their names.
    None of these four interactions writes a form value. *)
Theorem dates_and_files_stay_in_the_state_bag :
  forall (datePicker datetimePicker smart fileInput : FormFieldType.t)
         (h : FormRenderer.Hooks) (d : option Date) (d' : Date)
         (fs : option (list File)),
    switchCase (FormFieldType.variant datePicker) = Some CaseDatePicker ->
    switchCase (FormFieldType.variant datetimePicker)
    = Some CaseDatetimePicker ->
    switchCase (FormFieldType.variant smart) = Some CaseSmartDatetimeInput ->
    switchCase (FormFieldType.variant fileInput) = Some CaseFileInput ->
    displayedDate
      (shownControl (interact h datePicker (PickDate d)) datePicker)
    = Some d
    /\ displayedDate
         (shownControl (interact h datetimePicker (PickDate (Some d')))
            datetimePicker)
       = Some (Some d')
    /\ interact h datetimePicker (PickDate None) = h
    /\ displayedDate
         (shownControl (interact h smart (TypeDate d')) smart)
       = Some (Some d')
    /\ displayedFiles
         (shownControl (interact h fileInput (DropFiles fs)) fileInput)
       = Some (fs, match fs with
                   | Some l => map file_name l
                   | None => []
                   end)
    /\ FormRenderer.formWrites (interact h datePicker (PickDate d))
       = FormRenderer.formWrites h
    /\ FormRenderer.formWrites
         (interact h datetimePicker (PickDate (Some d')))
       = FormRenderer.formWrites h
    /\ FormRenderer.formWrites (interact h smart (TypeDate d'))
       = FormRenderer.formWrites h
    /\ FormRenderer.formWrites (interact h fileInput (DropFiles fs))
       = FormRenderer.formWrites h.
Proof.
  intros datePicker datetimePicker smart fileInput h d d' fs H1 H2 H3 H4.
  unfold interact, handle, shownControl, renderFormField.
  rewrite H1, H2, H3, H4. cbn. repeat split.
Qed.

Lemma dates_and_files_stay_in_the_state_bag_witness :
  displayedDate
    (shownControl
       (interact
          (interact FormRenderer.initial (fieldOf "Date Picker" "birthday")
             (PickDate (Some 86400000)))
          (fieldOf "Date Picker" "birthday") (PickDate None))
       (fieldOf "Date Picker" "birthday"))
  = Some None
  /\ interact
       (interact FormRenderer.initial (fieldOf "Datetime Picker" "meeting")
          (PickDate (Some 86400000)))
       (fieldOf "Datetime Picker" "meeting") (PickDate None)
     = interact FormRenderer.initial (fieldOf "Datetime Picker" "meeting")
         (PickDate (Some 86400000)).
Proof.
  destruct (dates_and_files_stay_in_the_state_bag
              (fieldOf "Date Picker" "birthday")
              (fieldOf "Datetime Picker" "meeting")
              (fieldOf "Smart Datetime Input" "event")
              (fieldOf "File Input" "documents")
              (interact FormRenderer.initial (fieldOf "Date Picker" "birthday")
                 (PickDate (Some 86400000)))
              None 0 None eq_refl eq_refl eq_refl eq_refl)
    as (Hclear & _).
  destruct (dates_and_files_stay_in_the_state_bag
              (fieldOf "Date Picker" "birthday")
              (fieldOf "Datetime Picker" "meeting")
              (fieldOf "Smart Datetime Input" "event")
              (fieldOf "File Input" "documents")
              (interact FormRenderer.initial
                 (fieldOf "Datetime Picker" "meeting")
                 (PickDate (Some 86400000)))
              None 0 None eq_refl eq_refl eq_refl eq_refl)
    as (_ & _ & Hkeep & _).
  split; [exact Hclear | exact Hkeep].
Defined.

(** X14.  The Slider and the Combobox of one form share the [value] slot.
    After the slider is moved to [v], the slider's description shows [v]
    instead of the default 5, and every Combobox shows a button without a
    label and no check mark, because the printed number is no language
    code; after a language is selected, the slider's description shows the
    language code as its selected value. *)
Theorem slider_and_combobox_share_the_value_slot :
  forall (slider combobox : FormFieldType.t) (h : FormRenderer.Hooks)
         (v : Z) (rest : list Z),
    switchCase (FormFieldType.variant slider) = Some CaseSlider ->
    switchCase (FormFieldType.variant combobox) = Some CaseCombobox ->
    let h' := interact h slider (Slide (v :: rest)) in
    (FormRenderer.value h = ""%string -> sliderShows h slider = Some (VNum 5))
    /\ FormRenderer.value h' = numToString v
    /\ sliderShows h' slider = Some (VStr (numToString v))
    /\ displayedLanguage (shownControl h' combobox)
       = Some (VUndef, map (fun _ => false) languages)
    /\ (forall n language,
          nth_error languages n = Some language ->
          sliderShows (interact h combobox (SelectItem n)) slider
          = Some (VStr (Ui.lang_value language))).
Proof.
  intros slider combobox h v rest Hs Hc. cbv zeta.
  unfold interact, handle, shownControl, sliderShows, renderFormField.
  rewrite Hs, Hc. cbn zeta. cbn [Ui.control fire Ui.description nth_error].
  split; [intros H0; cbn; rewrite H0; reflexivity|].
  split; [reflexivity|].
  destruct (numToString_head v) as (c & tail & Hv & Hin).
  split; [|split].
  - cbn. rewrite Hv. reflexivity.
  - cbn. rewrite Hv. cbn in Hin.
    repeat (destruct Hin as [<-|Hin]; [reflexivity|]). contradiction.
  - intros n language Hn. rewrite nth_error_map, Hn. cbn [option_map].
    do 9 (destruct n as [|n]; [injection Hn as <-; reflexivity|]).
    destruct n; discriminate Hn.
Qed.

Lemma slider_and_combobox_share_the_value_slot_witness :
  sliderShows
    (interact FormRenderer.initial (fieldOf "Slider" "price") (Slide [40]))
    (fieldOf "Slider" "price")
  = Some (VStr "40")
  /\ displayedLanguage
       (shownControl
          (interact FormRenderer.initial (fieldOf "Slider" "price")
             (Slide [40]))
          (fieldOf "Combobox" "language"))
     = Some (VUndef,
             [false; false; false; false; false; false; false; false; false])
  /\ sliderShows
       (interact FormRenderer.initial (fieldOf "Combobox" "language")
          (SelectItem 1))
       (fieldOf "Slider" "price")
     = Some (VStr "fr").
Proof.
  destruct (slider_and_combobox_share_the_value_slot
              (fieldOf "Slider" "price") (fieldOf "Combobox" "language")
              FormRenderer.initial 40 [] eq_refl eq_refl)
    as (_ & _ & Hshow & Hcombo & Hlang).
  split; [exact Hshow|]. split; [exact Hcombo|].
  exact (Hlang 1%nat {| Ui.lang_label := "French"; Ui.lang_value := "fr" |}
           eq_refl).
Defined.

(** X15.  In the builder's preview the state bag is constant and its
    setters do nothing: for every case except Select and Signature Input,
    which call the field's own [onChange], an interaction issues no state
    command at all, so that nothing a user does changes what the preview
    displays; the controls that write only their slot issue nothing, and
    the only commands ever issued are the form writes of Combobox, Location
    Input, Multi Select and Tags Input. *)
Theorem preview_interactions_change_no_state :
  forall (field : FormFieldType.t) (c : Case) (i : Interaction),
    switchCase (FormFieldType.variant field) = Some c ->
    callsFieldOnChange c = false ->
    let cs := handle field FormRenderer.form FormPreview.previewState i in
    (forall x, In x cs -> isStateWrite x = false)
    /\ (forall h, FormRenderer.bag (FormRenderer.apply h cs)
                  = FormRenderer.bag h)
    /\ (writesBoth c = false -> cs = [])
    /\ (List.length cs <= 1)%nat.
Proof.
  intros field c i Hcase Hcall. cbv zeta.
  unfold handle, renderFormField. rewrite Hcase.
  assert (Hnil : forall c0 : Case,
             (forall x : Cmd, In x [] -> isStateWrite x = false)
             /\ (forall h, FormRenderer.bag (FormRenderer.apply h [])
                           = FormRenderer.bag h)
             /\ (writesBoth c0 = false -> @nil Cmd = [])
             /\ (List.length (@nil Cmd) <= 1)%nat).
  { intros c0. repeat split. intros x []. cbn. lia. }
  assert (Hform : forall c0 n v o,
             writesBoth c0 = true ->
             (forall x : Cmd, In x [FormSetValue n v o] ->
                              isStateWrite x = false)
             /\ (forall h,
                   FormRenderer.bag
                     (FormRenderer.apply h [FormSetValue n v o])
                   = FormRenderer.bag h)
             /\ (writesBoth c0 = false -> [FormSetValue n v o] = [])
             /\ (List.length [FormSetValue n v o] <= 1)%nat).
  { intros c0 n v o Hb. repeat split.
    - intros x [<-|[]]. reflexivity.
    - intros Hf. congruence.
    - cbn. lia. }
  destruct c; try discriminate Hcall; cbn zeta; cbn [Ui.control];
    destruct i; cbn [fire];
    try apply Hnil; try (apply Hform; reflexivity).
  - (* Combobox *)
    rewrite nth_error_map.
    destruct (nth_error languages i) as [language|]; cbn [option_map];
      [apply Hform; reflexivity | apply Hnil].
  - (* Datetime Picker *)
    destruct d; apply Hnil.
  - (* Slider *)
    destruct value as [|v0 rest]; apply Hnil.
Qed.

Lemma preview_interactions_change_no_state_witness :
  handle (fieldOf "Checkbox" "subscribe") FormRenderer.form
    FormPreview.previewState Toggle = []
  /\ handle (fieldOf "Slider" "price") FormRenderer.form
       FormPreview.previewState (Slide [40]) = []
  /\ forall x,
       In x (handle (fieldOf "Tags Input" "keywords") FormRenderer.form
               FormPreview.previewState (PickValues ["a"]%string)) ->
       isStateWrite x = false.
Proof.
  destruct (preview_interactions_change_no_state
              (fieldOf "Checkbox" "subscribe") CaseCheckbox Toggle
              eq_refl eq_refl) as (_ & _ & H1 & _).
  destruct (preview_interactions_change_no_state
              (fieldOf "Slider" "price") CaseSlider (Slide [40])
              eq_refl eq_refl) as (_ & _ & H2 & _).
  destruct (preview_interactions_change_no_state
              (fieldOf "Tags Input" "keywords") CaseTagsInput
              (PickValues ["a"]%string) eq_refl eq_refl) as (H3 & _).
  split; [exact (H1 eq_refl)|]. split; [exact (H2 eq_refl) | exact H3].
Defined.

(* ===================================================================== *)
(** ** The documented field types against the renderer *)
(* ===================================================================== *)

(** X16.  Every documented example carries its entry's key as [type] and
    converts without an exception, but only the examples whose type has no
    hyphen get a control: the examples of the nine hyphenated types are
    left out of the rendered form. *)
Theorem documented_examples_render_unless_hyphenated :
  forall (key : string) (example : Val),
    In (key, example) fieldTypesDocs ->
    getProp example "type" = Ok (VStr key)
    /\ exists f,
         FormRenderer.convertJsonFieldToFormField example = Ok f
         /\ FormFieldType.name f = propOf example "name"
         /\ unknownVariant f = hasHyphen key
         /\ (forall controller h,
               List.length
                 (shownFields controller h [f])
               = if hasHyphen key then 0%nat else 1%nat).
Proof.
  intros key example Hin.
  assert (H : getProp example "type" = Ok (VStr key)
              /\ exists f,
                   FormRenderer.convertJsonFieldToFormField example = Ok f
                   /\ FormFieldType.name f = propOf example "name"
                   /\ unknownVariant f = hasHyphen key).
  { cbn in Hin.
    repeat (destruct Hin as [[= <- <-]|Hin];
            [split; [reflexivity|]; eexists;
             split; [reflexivity|]; split; reflexivity|]).
    contradiction. }
  destruct H as (Ht & f & Hf & Hn & Hu).
  split; [exact Ht|]. exists f. split; [exact Hf|]. split; [exact Hn|].
  split; [exact Hu|].
  intros controller h. unfold shownFields. cbn [flat_map].
  rewrite <- Hu.
  destruct (unknownVariant f) eqn:Hk.
  - apply (renderFormField_None_iff f FormRenderer.form (FormRenderer.bag h))
      in Hk. now rewrite Hk.
  - destruct (renderFormField f FormRenderer.form (FormRenderer.bag h))
      as [item|] eqn:Hr; [reflexivity|].
    apply renderFormField_None_iff in Hr. congruence.
Qed.

Lemma documented_examples_render_unless_hyphenated_witness :
  exists f,
    FormRenderer.convertJsonFieldToFormField
      (VObj [ ("type", VStr "tags-input"); ("label", VStr "Keywords");
              ("name", VStr "keywords");
              ("placeholder", VStr "Type and press enter to add tags");
              ("maxTags", VNum 5);
              ("description",
               VStr "Add up to 5 keywords to describe your content") ])
    = Ok f
    /\ unknownVariant f = true.
Proof.
  destruct (documented_examples_render_unless_hyphenated "tags-input"
              (VObj [ ("type", VStr "tags-input"); ("label", VStr "Keywords");
                      ("name", VStr "keywords");
                      ("placeholder", VStr "Type and press enter to add tags");
                      ("maxTags", VNum 5);
                      ("description",
                       VStr "Add up to 5 keywords to describe your content") ]))
    as (_ & f & Hf & _ & Hu & _).
  - simpl. do 13 right. left. reflexivity.
  - exists f. split; [exact Hf | exact Hu].
Defined.

Example documented_types_split_evenly :
  List.length fieldTypesDocs = 18%nat
  /\ List.length (filter (fun e => hasHyphen (fst e)) fieldTypesDocs) = 9%nat.
Proof. split; reflexivity. Qed.

(* ===================================================================== *)
(** ** From the form data to the mounted form *)
(* ===================================================================== *)




Example default_form_mounts_its_three_fields :
  option_map (map fst)
    (match renderForm (fun _ => Ok tt) echoController
             FormJsonBuilder.defaultFormJson FormRenderer.initial with
     | Ok slots => Some slots
     | Throw _ => None
     end)
  = Some [VStr "fullName"; VStr "email"; VStr "bio"].
Proof. reflexivity. Qed.

Example rendered_field_without_name_throws :
  renderForm (fun _ => Ok tt) echoController
    (VObj [("fields", VArr [ VObj [("type", VStr "checkbox")] ])])
    FormRenderer.initial
  = Throw React.nameTypeError.
Proof. reflexivity. Qed.

(** X18.  A field that comes from JSON has an [onChange] that does
    nothing, so that in the JSON-driven renderer the controls of Select and
    Signature Input, like those of Input, Input OTP, Textarea, Password and
    Phone, issue no command on any interaction: what the user chooses or
    types there reaches neither the state bag nor the form. *)
Theorem json_select_and_text_controls_record_nothing :
  forall (jsonField : Val) (f : FormFieldType.t) (c : Case)
         (form : Form.t) (state : State.t) (i : Interaction),
    FormRenderer.convertJsonFieldToFormField jsonField = Ok f ->
    switchCase (FormFieldType.variant f) = Some c ->
    (callsFieldOnChange c || unwired c)%bool = true ->
    handle f form state i = []
    /\ forall h, interact h f i = h.
Proof.
  intros jsonField f c form state i Hf Hcase Hclass.
  assert (Hon : forall v, FormFieldType.onChange f v = []).
  { assert (Ht : exists t, getProp jsonField "type" = Ok t).
    { unfold FormRenderer.convertJsonFieldToFormField in Hf.
      destruct (getProp jsonField "type") as [t|]; [eauto | discriminate Hf]. }
    destruct Ht as [t Ht].
    destruct (convert_spec jsonField t Ht) as (_ & _ & Hprops).
    apply (Hprops f Hf). }
  assert (Hall : forall form0 state0, handle f form0 state0 i = []).
  { intros form0 state0. unfold handle, renderFormField. rewrite Hcase.
    destruct c; try discriminate Hclass; cbn zeta; cbn [Ui.control];
      destruct i; cbn [fire]; try reflexivity.
    - apply Hon.
    - destruct signature as [s|]; [|reflexivity].
      destruct (truthy (VStr s)); [apply Hon | reflexivity]. }
  split; [apply Hall|].
  intros h. unfold interact. now rewrite Hall.
Qed.

Lemma json_select_and_text_controls_record_nothing_witness :
  exists f,
    FormRenderer.convertJsonFieldToFormField
      (VObj [("type", VStr "select"); ("name", VStr "country")]) = Ok f
    /\ interact FormRenderer.initial f (PickOption (VStr "m@google.com"))
       = FormRenderer.initial.
Proof.
  eexists. split; [reflexivity|].
  exact (proj2 (json_select_and_text_controls_record_nothing
                  (VObj [("type", VStr "select"); ("name", VStr "country")])
                  _ CaseSelect FormRenderer.form
                  (FormRenderer.bag FormRenderer.initial)
                  (PickOption (VStr "m@google.com")) eq_refl eq_refl eq_refl)
               FormRenderer.initial).
Defined.
